(** * AMQ Autopause: the background script's event-stream connection manager

    A shallow embedding of the background script (the [defineBackground]
    closure): its two module-level variables [eventSource] and
    [reconnectAttempts], the function [connectSSE], the handlers it installs
    on the [EventSource] ([onopen], [onerror], the "connected" and "pause"
    listeners), [sendPauseToAMQ], the [runtime.onMessage] listener and the
    [storage.onChanged] listener.

    The script is event driven: every handler is embedded as a function on
    an explicit [State], and the browser is a step relation that fires them.
    An [async] function is taken as one atomic step (the spec's "state
    transitions are serialized"). *)

From Stdlib Require Import ZArith String List Lia.
From stdpp Require Import base gmap strings list.

Local Open Scope string_scope.
Local Open Scope list_scope.
Set Warnings "-register-all".

(** ** JavaScript values

    Storage items, parsed event payloads and message bodies are JSON values;
    [None] at type [option Json] is JavaScript's [undefined].  Numbers are
    kept to the integers: the script only counts and compares them. *)

Inductive Json : Type :=
| JNull
| JBool (b : bool)
| JNum (n : Z)
| JStr (s : string)
| JArr (items : list Json)
| JObj (fields : list (string * Json)).

Abbreviation undefined := (@None Json).

(** ToBoolean, as used by [if (x)] and [!x]. *)
Definition truthy (v : option Json) : bool :=
  match v with
  | None => false
  | Some JNull => false
  | Some (JBool b) => b
  | Some (JNum n) => negb (n =? 0)%Z
  | Some (JStr s) => negb (String.eqb s "")
  | Some (JArr _) => true
  | Some (JObj _) => true
  end.

(** [a === b], for two values that are not the same object: objects and
    arrays are compared by identity, and the two sides of the script's only
    comparison come from two different calls ([storage.local.get] and
    [JSON.parse]). *)
Definition strict_eq (a b : option Json) : bool :=
  match a, b with
  | None, None => true
  | Some JNull, Some JNull => true
  | Some (JBool x), Some (JBool y) => Bool.eqb x y
  | Some (JNum x), Some (JNum y) => (x =? y)%Z
  | Some (JStr x), Some (JStr y) => String.eqb x y
  | _, _ => false
  end.

Fixpoint assoc (k : string) (fields : list (string * Json)) : option Json :=
  match fields with
  | [] => None
  | (k', v) :: rest => if String.eqb k k' then Some v else assoc k rest
  end.

(** [v.k] on a value that is neither [null] nor [undefined].  The keys the
    script reads ([user], [id], [rewardId]) are own properties of objects
    only; on a boolean, number, string or array they are [undefined]. *)
Definition get_prop (v : Json) (k : string) : option Json :=
  match v with
  | JObj fields => assoc k fields
  | _ => None
  end.

(** [v?.k] *)
Definition opt_chain (v : option Json) (k : string) : option Json :=
  match v with
  | None => None
  | Some JNull => None
  | Some j => get_prop j k
  end.

(** ** The browser objects the script holds or talks to *)

Inductive ReadyState : Type := CONNECTING | OPEN | CLOSED.

Definition ReadyState_eqb (a b : ReadyState) : bool :=
  match a, b with
  | CONNECTING, CONNECTING => true
  | OPEN, OPEN => true
  | CLOSED, CLOSED => true
  | _, _ => false
  end.

Record EventSource : Type := mkEventSource { readyState : ReadyState }.

Inductive Level : Type := LLog | LWarn | LError.

(** What the script does to the outside, in the order it does it.  A
    console line keeps its level, its fixed text and the values it prints
    that come from the script's own data; the pieces of a template string
    are given as arguments, and what the browser supplies (an error object,
    the runtime id) is left out. *)
Inductive Effect : Type :=
| NewEventSource                       (* new EventSource(url, {withCredentials: true}) *)
| Close                                (* eventSource.close() *)
| SetTimeout (delay : Z)               (* setTimeout(connectSSE, delay) *)
| TabsQuery                            (* browser.tabs.query({url: ...}) *)
| SendMessage (tab : Z) (message : Json)   (* browser.tabs.sendMessage(tab, message) *)
| Console (level : Level) (text : string) (args : list Json).

(** [eventSource] and [reconnectAttempts] are the script's two variables.
    [timers] counts the pending [setTimeout(connectSSE, RECONNECT_DELAY)]
    callbacks: the script keeps no timer handle and never calls
    [clearTimeout], so a pending callback can only fire.  [local] is
    [browser.storage.local]; [trace] records the effects so far. *)
Record State : Type := mkState {
  eventSource : option EventSource;
  reconnectAttempts : Z;
  timers : nat;
  local : gmap string Json;
  trace : list Effect
}.

Definition MAX_RECONNECT_ATTEMPTS : Z := 10.
Definition RECONNECT_DELAY : Z := 5000.

Definition set_eventSource (es : option EventSource) (s : State) : State :=
  mkState es (reconnectAttempts s) (timers s) (local s) (trace s).

Definition set_reconnectAttempts (n : Z) (s : State) : State :=
  mkState (eventSource s) n (timers s) (local s) (trace s).

Definition set_timers (n : nat) (s : State) : State :=
  mkState (eventSource s) (reconnectAttempts s) n (local s) (trace s).

Definition set_local (st : gmap string Json) (s : State) : State :=
  mkState (eventSource s) (reconnectAttempts s) (timers s) st (trace s).

Definition emit (e : Effect) (s : State) : State :=
  mkState (eventSource s) (reconnectAttempts s) (timers s) (local s)
          (trace s ++ [e]).

Definition console (l : Level) (text : string) (args : list Json) : State -> State :=
  emit (Console l text args).

(** Statements of a handler, run in sequence. *)
Notation "s |> f" := (f s) (at level 45, left associativity, only parsing).

(** [browser.storage.local.get(keys)]: the stored items among [keys]. *)
Definition storage_get (keys : list string) (st : gmap string Json) : gmap string Json :=
  filter (fun kv => kv.1 ∈ keys) st.

(** [if (eventSource) { eventSource.close(); eventSource = null; }] *)
Definition close_existing (s : State) : State :=
  match eventSource s with
  | Some _ => s |> emit Close |> set_eventSource None
  | None => s
  end.

(** ** connectSSE (part_002, lines 29-135) *)

(** The [try] block: the constructor call and the installation of the four
    handlers, which are the definitions [onopen], [connected_listener],
    [pause_listener] and [onerror] below.  A new [EventSource] starts in
    [CONNECTING]. *)
Definition open_stream (s : State) : State :=
  s |> console LLog "Attempting to connect SSE with credentials..." []
    |> emit NewEventSource
    |> set_eventSource (Some (mkEventSource CONNECTING)).

Definition connectSSE (s : State) : State :=
  let storage :=
    storage_get ["configuredRewardId"; "sseEnabled"; "twitchSession"] (local s) in
  if negb (truthy (storage !! "sseEnabled")) then
    s |> console LLog "SSE is disabled in settings" []
  else if negb (truthy (storage !! "configuredRewardId")) then
    s |> console LLog "No reward ID configured, SSE not starting" []
  else if negb (truthy (opt_chain (opt_chain (storage !! "twitchSession") "user") "id")) then
    s |> console LWarn "No active session found, SSE not starting" []
      |> console LWarn "Please sign in with Twitch first" []
  else
    s |> close_existing |> open_stream.

(** ** The handlers installed on the EventSource *)

(** [eventSource.onopen] (lines 69-72) *)
Definition onopen (s : State) : State :=
  s |> console LLog "SSE connection established" []
    |> set_reconnectAttempts 0.

(** [eventSource.onerror] (lines 105-131), with the bound as an argument;
    the script's handler is [onerror], at [MAX_RECONNECT_ATTEMPTS]. *)
Definition closed_by_server (s : State) : State :=
  match eventSource s with
  | Some es =>
      if ReadyState_eqb (readyState es) CLOSED then
        s |> console LError "SSE connection closed by server" []
          |> console LError "This may indicate authentication failure or server unavailability" []
          |> console LError "Please ensure you are signed in with Twitch" []
      else s
  | None => s
  end.

(** [eventSource?.close(); eventSource = null;] *)
Definition drop_stream (s : State) : State :=
  match eventSource s with
  | Some _ => s |> emit Close |> set_eventSource None
  | None => s |> set_eventSource None
  end.

Definition schedule_reconnect (max : Z) (s : State) : State :=
  if (reconnectAttempts s <? max)%Z then
    let s1 := s |> set_reconnectAttempts (reconnectAttempts s + 1)%Z in
    s1 |> console LLog "Reconnecting (attempt)"
            [JNum (RECONNECT_DELAY / 1000)%Z; JNum (reconnectAttempts s1); JNum max]
       |> emit (SetTimeout RECONNECT_DELAY)
       |> set_timers (S (timers s1))
  else
    s |> console LError "Max reconnection attempts reached, giving up" []
      |> console LError "Please check your authentication status and try signing in again" [].

Definition onerror_with (max : Z) (s : State) : State :=
  s |> console LError "SSE error:" []
    |> closed_by_server
    |> drop_stream
    |> schedule_reconnect max.

Definition onerror : State -> State := onerror_with MAX_RECONNECT_ATTEMPTS.

(** A pending [setTimeout(connectSSE, RECONNECT_DELAY)] fires. *)
Definition timer_fires (s : State) : State :=
  match timers s with
  | O => s
  | S n => s |> set_timers n |> connectSSE
  end.

(** ** Delivery: sendPauseToAMQ (lines 140-175) *)

Record Tab : Type := mkTab { tab_id : option Z }.

(** How a promise of the browser settles. *)
Inductive Settled (A : Type) : Type :=
| Resolved (v : A)
| Rejected (reason : string).
Arguments Resolved {A} v.
Arguments Rejected {A} reason.

(** The part of the browser [sendPauseToAMQ] awaits: the answer of
    [tabs.query] and, for each tab, how [tabs.sendMessage] to it settles. *)
Record Browser : Type := mkBrowser {
  tabs_query : Settled (list Tab);
  tabs_sendMessage : Z -> Json -> Settled Json
}.

Definition pause_message (data : Json) : Json :=
  JObj [("type", JStr "PAUSE_AMQ"); ("data", data)].

(** The body of [for (const tab of tabs)]: [if (tab.id)] skips a tab whose
    id is [undefined] or 0; the [try]/[catch] is around one send. *)
Definition send_to_tab (b : Browser) (data : Json) (tab : Tab) (s : State) : State :=
  match tab_id tab with
  | Some id =>
      if truthy (Some (JNum id)) then
        match tabs_sendMessage b id (pause_message data) with
        | Resolved response =>
            s |> emit (SendMessage id (pause_message data))
              |> console LLog "Pause command sent to tab" [JNum id; response]
        | Rejected reason =>
            s |> emit (SendMessage id (pause_message data))
              |> console LError "Failed to send to tab" [JNum id; JStr reason]
        end
      else s
  | None => s
  end.

Fixpoint send_to_tabs (b : Browser) (data : Json) (tabs : list Tab) (s : State) : State :=
  match tabs with
  | [] => s
  | tab :: rest => send_to_tabs b data rest (send_to_tab b data tab s)
  end.

Definition sendPauseToAMQ (b : Browser) (data : Json) (s : State) : State :=
  match tabs_query b with
  | Rejected reason =>
      s |> emit TabsQuery
        |> console LError "Error sending pause command:" [JStr reason]
  | Resolved tabs =>
      if (length tabs =? 0)%nat then
        s |> emit TabsQuery |> console LWarn "No AMQ tabs found" []
      else
        s |> emit TabsQuery |> send_to_tabs b data tabs
  end.

(** ** The "connected" and "pause" listeners (lines 74-103) *)

(** [event.data] is a string that the listeners hand to [JSON.parse]; an
    event is given by what [JSON.parse] makes of its data. *)
Inductive Parse : Type :=
| SyntaxError_thrown
| Parsed (value : Json).

Record MessageEvent : Type := mkMessageEvent { data : Parse }.

Inductive JsError : Type := SyntaxError | TypeError.

(** How a listener ends: it returns (for the [async] listener, its promise
    is fulfilled), or an exception leaves it (its promise is rejected);
    nothing in the script catches either. *)
Inductive Completion : Type :=
| Normal
| Throws (e : JsError).

Definition connected_listener (event : MessageEvent) (s : State) : State * Completion :=
  match data event with
  | SyntaxError_thrown => (s, Throws SyntaxError)
  | Parsed d => (s |> console LLog "Connected to event stream:" [d], Normal)
  end.

(** [data.rewardId]: a [TypeError] on [null]. *)
Definition member (v : Json) (k : string) : option (option Json) :=
  match v with
  | JNull => None
  | _ => Some (get_prop v k)
  end.

Definition pause_listener (b : Browser) (event : MessageEvent) (s : State)
  : State * Completion :=
  match data event with
  | SyntaxError_thrown => (s, Throws SyntaxError)
  | Parsed d =>
      let s1 := s |> console LLog "Received pause event:" [d] in
      let currentStorage := storage_get ["configuredRewardId"] (local s1) in
      match member d "rewardId" with
      | None => (s1, Throws TypeError)
      | Some rewardId =>
          if negb (strict_eq (currentStorage !! "configuredRewardId") rewardId) then
            (s1 |> console LLog "Reward ID does not match configured ID:" [], Normal)
          else
            (s1 |> console LLog "Reward ID matches! Sending pause command" []
                |> sendPauseToAMQ b d, Normal)
      end
  end.

(** ** The runtime.onMessage listener (lines 180-206) *)

(** What the listener did with the message: called [sendResponse] and
    returned [true], returned [false], or failed on [message.type]. *)
Inductive Reply : Type :=
| Responded (response : Json)
| NotHandled
| Failed_with (e : JsError).

Definition success_response : Json := JObj [("success", JBool true)].

(** [eventSource !== null && eventSource.readyState === EventSource.OPEN] *)
Definition connected (s : State) : bool :=
  match eventSource s with
  | Some es => ReadyState_eqb (readyState es) OPEN
  | None => false
  end.

Definition status_response (s : State) : Json :=
  JObj [("connected", JBool (connected s));
        ("reconnectAttempts", JNum (reconnectAttempts s))].

(** The body of the [DISCONNECT_SSE] branch before [sendResponse]. *)
Definition disconnect (s : State) : State :=
  match eventSource s with
  | Some _ =>
      s |> emit Close
        |> set_eventSource None
        |> console LLog "SSE disconnected by user" []
  | None => s
  end.

Definition onMessage (message : Json) (s : State) : State * Reply :=
  match member message "type" with
  | None => (s, Failed_with TypeError)
  | Some type =>
      if strict_eq type (Some (JStr "CONNECT_SSE")) then
        (connectSSE s, Responded success_response)
      else if strict_eq type (Some (JStr "DISCONNECT_SSE")) then
        (disconnect s, Responded success_response)
      else if strict_eq type (Some (JStr "GET_SSE_STATUS")) then
        (s, Responded (status_response s))
      else (s, NotHandled)
  end.

Definition CONNECT_SSE : Json := JObj [("type", JStr "CONNECT_SSE")].
Definition DISCONNECT_SSE : Json := JObj [("type", JStr "DISCONNECT_SSE")].
Definition GET_SSE_STATUS : Json := JObj [("type", JStr "GET_SSE_STATUS")].

(** ** The storage.onChanged listener (lines 209-216) *)

Record StorageChange : Type := mkStorageChange {
  oldValue : option Json;
  newValue : option Json
}.

(** [changes] has one entry per changed item; an entry is an object, so
    [changes.k] is truthy exactly when [k] is among the changed items. *)
Definition changed (changes : gmap string StorageChange) (k : string) : bool :=
  match changes !! k with
  | Some _ => true
  | None => false
  end.

Definition onChanged (changes : gmap string StorageChange) (areaName : string)
    (s : State) : State :=
  if String.eqb areaName "local" then
    if changed changes "sseEnabled" || changed changes "configuredRewardId" then
      s |> console LLog "Configuration changed, reconnecting SSE" []
        |> connectSSE
    else s
  else s.

(** ** The script as a transition system *)

(** The body of [defineBackground]: the variables are initialised, the
    listeners registered and [connectSSE()] is called (line 219). *)
Definition defineBackground (st : gmap string Json) : State :=
  mkState None 0 0 st []
    |> console LLog "Background script started" []
    |> connectSSE.

(** The browser sets [readyState] before it dispatches [open] or [error]. *)
Definition set_readyState (rs : ReadyState) (s : State) : State :=
  match eventSource s with
  | Some _ => s |> set_eventSource (Some (mkEventSource rs))
  | None => s
  end.

Inductive Event : Type :=
| EvMessage (message : Json)
| EvStorage (st : gmap string Json) (changes : gmap string StorageChange)
| EvOtherArea (changes : gmap string StorageChange) (areaName : string)
| EvOpen
| EvError (rs : ReadyState)
| EvConnected (event : MessageEvent)
| EvPause (b : Browser) (event : MessageEvent)
| EvTimer.

(** An [EventSource] dispatches nothing once closed, a stream opens once,
    messages arrive on an open stream, and only a pending timer fires. *)
Definition enabled (e : Event) (s : State) : bool :=
  match e with
  | EvMessage _ => true
  | EvStorage _ _ => true
  | EvOtherArea _ areaName => negb (String.eqb areaName "local")
  | EvOpen =>
      match eventSource s with
      | Some es => ReadyState_eqb (readyState es) CONNECTING
      | None => false
      end
  | EvError rs =>
      match eventSource s with
      | Some es => negb (ReadyState_eqb (readyState es) CLOSED)
                   && negb (ReadyState_eqb rs OPEN)
      | None => false
      end
  | EvConnected _ => connected s
  | EvPause _ _ => connected s
  | EvTimer => negb (timers s =? 0)%nat
  end.

Definition fire (e : Event) (s : State) : State :=
  match e with
  | EvMessage message => fst (onMessage message s)
  | EvStorage st changes => s |> set_local st |> onChanged changes "local"
  | EvOtherArea changes areaName => s |> onChanged changes areaName
  | EvOpen => s |> set_readyState OPEN |> onopen
  | EvError rs => s |> set_readyState rs |> onerror
  | EvConnected event => fst (connected_listener event s)
  | EvPause b event => fst (pause_listener b event s)
  | EvTimer => timer_fires s
  end.

Inductive reachable (st : gmap string Json) : State -> Prop :=
| reachable_start : reachable st (defineBackground st)
| reachable_fire (e : Event) (s : State) :
    reachable st s -> enabled e s = true -> reachable st (fire e s).

Fixpoint run (es : list Event) (s : State) : State :=
  match es with
  | [] => s
  | e :: rest => run rest (fire e s)
  end.

(** Observations on a trace. *)
Definition is_NewEventSource (e : Effect) : bool :=
  match e with NewEventSource => true | _ => false end.

Definition is_Close (e : Effect) : bool :=
  match e with Close => true | _ => false end.

Definition is_Console (e : Effect) : bool :=
  match e with Console _ _ _ => true | _ => false end.

Definition is_error_line (e : Effect) : bool :=
  match e with Console LError _ _ => true | _ => false end.

(** The number of [EventSource]s constructed so far. *)
Definition constructed (s : State) : nat :=
  length (List.filter is_NewEventSource (trace s)).

(** The number of [close()] calls so far. *)
Definition closes (s : State) : nat :=
  length (List.filter is_Close (trace s)).

(** The tabs [tabs.sendMessage] was called on, in order. *)
Fixpoint sent_to (t : list Effect) : list Z :=
  match t with
  | [] => []
  | SendMessage tab _ :: rest => tab :: sent_to rest
  | _ :: rest => sent_to rest
  end.

(** The gating precondition as [connectSSE] evaluates it on the store. *)
Definition enabled_setting (st : gmap string Json) : bool :=
  truthy (st !! "sseEnabled").

Definition filter_configured (st : gmap string Json) : bool :=
  truthy (st !! "configuredRewardId").

Definition credential_present (st : gmap string Json) : bool :=
  truthy (opt_chain (opt_chain (st !! "twitchSession") "user") "id").

Definition gate (st : gmap string Json) : bool :=
  enabled_setting st && filter_configured st && credential_present st.

(** No transport and no reconnect pending: the connector is at rest.  The
    script has no variable that tells the spec's [Idle] from its [Failed];
    both are this condition. *)
Definition at_rest (s : State) : Prop :=
  eventSource s = None /\ timers s = 0%nat.

(** Only console lines below the error level. *)
Definition quiet_line (e : Effect) : bool :=
  is_Console e && negb (is_error_line e).

(** ** Runs of consecutive transport failures

    One failure: the reconnect still pending from the previous failure (if
    any) fires, the transport then fails -- the browser leaves it in [rs],
    [CONNECTING] or [CLOSED], and dispatches [error].  Nothing else happens
    in between: no [open], no command, no storage change. *)
Definition failure_with (max : Z) (rs : ReadyState) (s : State) : State :=
  s |> timer_fires |> set_readyState rs |> onerror_with max.

Fixpoint consecutive_failures (max : Z) (rss : list ReadyState) (s : State) : State :=
  match rss with
  | [] => s
  | rs :: rest => consecutive_failures max rest (failure_with max rs s)
  end.

(** The same run as events of the transition system, at the script's bound. *)
Fixpoint failure_events (n : nat) : list Event :=
  match n with
  | O => []
  | S O => [EvError CLOSED]
  | S k => EvError CLOSED :: EvTimer :: failure_events k
  end.

(** The targets of a delivery: the tabs that pass [if (tab.id)]. *)
Fixpoint targets (tabs : list Tab) : list Z :=
  match tabs with
  | [] => []
  | tab :: rest =>
      match tab_id tab with
      | Some id => if truthy (Some (JNum id)) then id :: targets rest else targets rest
      | None => targets rest
      end
  end.

(** The console line that reports how the send to [id] settled. *)
Definition outcome_line (b : Browser) (d : Json) (id : Z) : Effect :=
  match tabs_sendMessage b id (pause_message d) with
  | Resolved response => Console LLog "Pause command sent to tab" [JNum id; response]
  | Rejected reason => Console LError "Failed to send to tab" [JNum id; JStr reason]
  end.

(** What a delivery to the targets [ids] leaves in the trace: per target,
    the send and the line reporting how it settled. *)
Definition deliveries (b : Browser) (d : Json) (ids : list Z) : list Effect :=
  flat_map (fun id => [SendMessage id (pause_message d); outcome_line b d id]) ids.

(** ** The earlier revision of the script (part_001)

    It differs from part_002 in [connectSSE], which reads no session from the
    store and awaits [browser.cookies.getAll] inside the [try] (the cookies
    are not used), and in [onerror], which does not look at [readyState]. *)
Module Part001.

Definition connectSSE (cookies : Settled (list Json)) (s : State) : State :=
  let storage := storage_get ["configuredRewardId"; "sseEnabled"] (local s) in
  if negb (truthy (storage !! "sseEnabled")) then
    s |> console LLog "SSE is disabled in settings" []
  else if negb (truthy (storage !! "configuredRewardId")) then
    s |> console LLog "No reward ID configured, SSE not starting" []
  else
    let s1 := close_existing s in
    match cookies with
    | Rejected reason => s1 |> console LError "Failed to connect SSE:" [JStr reason]
    | Resolved _ =>
        s1 |> emit NewEventSource
           |> set_eventSource (Some (mkEventSource CONNECTING))
    end.

Definition onerror (s : State) : State :=
  s |> console LError "SSE error:" []
    |> drop_stream
    |> schedule_reconnect MAX_RECONNECT_ATTEMPTS.

End Part001.

(** ** Sample configurations and states *)

Definition session : Json := JObj [("user", JObj [("id", JStr "42")])].

Definition config (enabled : bool) (rewardId : string) : gmap string Json :=
  <["sseEnabled" := JBool enabled]>
    (<["configuredRewardId" := JStr rewardId]>
       (<["twitchSession" := session]> ∅)).

Definition signed_out (enabled : bool) (rewardId : string) : gmap string Json :=
  <["sseEnabled" := JBool enabled]> (<["configuredRewardId" := JStr rewardId]> ∅).

(** The script right after its stream opened, under [config true "RWD-1"]. *)
Definition opened : State :=
  defineBackground (config true "RWD-1") |> fire EvOpen.

(** A reconnect is pending after one failure. *)
Definition reconnecting : State :=
  opened |> fire (EvError CLOSED).

Definition pause_event (rewardId : string) : MessageEvent :=
  mkMessageEvent (Parsed (JObj [("rewardId", JStr rewardId)])).

Definition malformed : MessageEvent := mkMessageEvent SyntaxError_thrown.

(** Three tabs; the second is gone, so the send to it is rejected. *)
Definition three_tabs : Browser :=
  mkBrowser (Resolved [mkTab (Some 7%Z); mkTab (Some 8%Z); mkTab (Some 9%Z)])
            (fun id _ => if (id =? 8)%Z
                         then Rejected "Receiving end does not exist"
                         else Resolved (JObj [("success", JBool true)])).

(** What a change of the stored items [k] looks like to [onChanged]. *)
Definition change_of (k : string) (old new : gmap string Json)
  : gmap string StorageChange :=
  {[ k := mkStorageChange (old !! k) (new !! k) ]}.

(** A failure can happen: a transport exists, or one reconnect is pending
    that will create it. *)
Definition armed (s : State) : Prop :=
  (is_Some (eventSource s) /\ timers s = 0%nat)
  \/ (eventSource s = None /\ timers s = 1%nat).

(** ** Further observations on a trace *)

Definition is_TabsQuery (e : Effect) : bool :=
  match e with TabsQuery => true | _ => false end.

(** The number of [tabs.query] calls so far: one per delivery started. *)
Definition queries (s : State) : nat :=
  length (List.filter is_TabsQuery (trace s)).

(** Whether the script holds a transport. *)
Definition holds_transport (s : State) : nat :=
  match eventSource s with
  | Some _ => 1
  | None => 0
  end.

(** ** The content script (part_002, lines 221-350)

    The page as the content script sees and changes it: what the two
    lookups of the pause button find, with the computed style of what they
    find; whether [document.head] and [document.body] exist; and, as
    counters, the clicks made, the [style] and notification nodes the
    script has in the document, and its pending timers. *)
Module Content.

Record Element : Type := mkElement {
  display : string;
  visibility : string
}.

Record Page : Type := mkPage {
  byId : option Element;
  byXPath : option Element;
  has_head : bool;
  has_body : bool;
  clicks : nat;
  styles : nat;
  notifications : nat;
  fade_timers : nat;
  remove_timers : nat;
  lines : list (Level * string)
}.

Definition say (l : Level) (text : string) (p : Page) : Page :=
  mkPage (byId p) (byXPath p) (has_head p) (has_body p) (clicks p) (styles p)
         (notifications p) (fade_timers p) (remove_timers p)
         (lines p ++ [(l, text)]).

Definition click (p : Page) : Page :=
  mkPage (byId p) (byXPath p) (has_head p) (has_body p) (S (clicks p)) (styles p)
         (notifications p) (fade_timers p) (remove_timers p) (lines p).

Definition append_style (p : Page) : Page :=
  mkPage (byId p) (byXPath p) (has_head p) (has_body p) (clicks p) (S (styles p))
         (notifications p) (fade_timers p) (remove_timers p) (lines p).

Definition append_notification (p : Page) : Page :=
  mkPage (byId p) (byXPath p) (has_head p) (has_body p) (clicks p) (styles p)
         (S (notifications p)) (S (fade_timers p)) (remove_timers p) (lines p).

(** [showNotification] (lines 291-338): [document.head.appendChild(style)],
    then [document.body.appendChild(notification)], then the 3000 ms timer.
    The result says whether it returned; it throws a [TypeError] where the
    node it appends to is missing. *)
Definition showNotification (p : Page) : Page * bool :=
  if has_head p then
    let p1 := append_style p in
    if has_body p1 then (append_notification p1, true)
    else (p1, false)
  else (p, false).

(** The 3000 ms callback: the notification fades and the 300 ms timer is
    set. *)
Definition fade_fires (p : Page) : Page :=
  match fade_timers p with
  | O => p
  | S n =>
      mkPage (byId p) (byXPath p) (has_head p) (has_body p) (clicks p) (styles p)
             (notifications p) n (S (remove_timers p)) (lines p)
  end.

(** The 300 ms callback: [notification.remove(); style.remove();]. *)
Definition remove_fires (p : Page) : Page :=
  match remove_timers p with
  | O => p
  | S n =>
      mkPage (byId p) (byXPath p) (has_head p) (has_body p) (clicks p)
             (pred (styles p)) (pred (notifications p)) (fade_timers p) n (lines p)
  end.

(** [style.display === "none" || style.visibility === "hidden"] *)
Definition hidden (el : Element) : bool :=
  String.eqb (display el) "none" || String.eqb (visibility el) "hidden".

(** The two places that click: [click()], the log line, the notification,
    [return true]; an exception of [showNotification] is caught by the
    enclosing [catch], which logs and returns [false]. *)
Definition click_and_notify (text : string) (p : Page) : Page * bool :=
  let '(p1, returned) := showNotification (p |> click |> say LLog text) in
  if returned then (p1, true)
  else (p1 |> say LError "Error clicking pause button:", false).

(** [clickPauseButton] (lines 240-286) *)
Definition clickPauseButton (p : Page) : Page * bool :=
  match byId p with
  | Some pauseButton =>
      if hidden pauseButton then
        (p |> say LWarn "Pause button is hidden", false)
      else click_and_notify "Successfully clicked pause button" p
  | None =>
      match byXPath p with
      | Some _ => click_and_notify "Clicked pause button via XPath" p
      | None => (p |> say LWarn "Pause button not found", false)
      end
  end.

(** What the listener did: called [sendResponse], returned without calling
    it, or failed on [message.type].  When it returns, it returns [true]. *)
Inductive Outcome : Type :=
| Answered (response : Json)
| Silent
| Threw (e : JsError).

(** The [runtime.onMessage] listener (lines 227-234), at time [now]. *)
Definition onMessage (now : Z) (message : Json) (p : Page) : Page * Outcome :=
  match member message "type" with
  | None => (p, Threw TypeError)
  | Some type =>
      if strict_eq type (Some (JStr "PAUSE_AMQ")) then
        let '(p1, success) :=
          clickPauseButton (p |> say LLog "Received pause command:") in
        (p1, Answered (JObj [("success", JBool success); ("timestamp", JNum now)]))
      else (p, Silent)
  end.

(** The page over time: messages arrive, the two timers of a notification
    fire, and the site changes what the lookups find. *)
Inductive Event : Type :=
| Message (now : Z) (message : Json)
| Fade
| Remove
| Mutation (by_id by_xpath : option Element) (head body : bool).

Definition fire (e : Event) (p : Page) : Page :=
  match e with
  | Message now message => fst (onMessage now message p)
  | Fade => fade_fires p
  | Remove => remove_fires p
  | Mutation by_id by_xpath head body =>
      mkPage by_id by_xpath head body (clicks p) (styles p) (notifications p)
             (fade_timers p) (remove_timers p) (lines p)
  end.

(** A freshly loaded page: the script has added nothing yet. *)
Definition loaded (by_id by_xpath : option Element) (head body : bool) : Page :=
  mkPage by_id by_xpath head body 0 0 0 0 0
         [(LLog, "Content script loaded on AnimeMusicQuiz")].

Inductive reachable : Page -> Prop :=
| reachable_loaded by_id by_xpath head body :
    reachable (loaded by_id by_xpath head body)
| reachable_fire (e : Event) (p : Page) :
    reachable p -> reachable (fire e p).

End Content.

(** ** The popup's handlers that drive the script (App.tsx, lines 119-150)

    [browser.storage.local.set(items)] writes the items over the store; the
    browser then notifies the background script's [onChanged] listener with
    [changes] (browsers differ on whether an item set to the value it had is
    listed, so [changes] is left open).  The listener does not await the
    [connectSSE] it starts, and [connectSSE] suspends at its first line, so
    the message the popup sends next can be handled after that [connectSSE]
    has run or before it: [handleToggleSSE] and [handleSaveConfig] are the
    handlers with the listener's [connectSSE] run first, and
    [handleToggleSSE_command_first] is the toggle with the command handled
    first.  Either way [connectSSE] reads the store after the write.  The
    promises the handlers await are taken to resolve. *)
Module Popup.

Record ConfigState : Type := mkConfigState {
  rewardId : string;
  sseEnabled : bool
}.

Definition storage_set (items : gmap string Json)
    (changes : gmap string StorageChange) (s : State) : State :=
  fire (EvStorage (items ∪ local s) changes) s.

(** [handleToggleSSE] (lines 139-150) *)
Definition handleToggleSSE (changes : gmap string StorageChange)
    (config : ConfigState) (s : State) : ConfigState * State :=
  let newEnabled := negb (sseEnabled config) in
  let config' := mkConfigState (rewardId config) newEnabled in
  let s1 := storage_set {[ "sseEnabled" := JBool newEnabled ]} changes s in
  if newEnabled && truthy (Some (JStr (rewardId config))) then
    (config', fire (EvMessage CONNECT_SSE) s1)
  else
    (config', fire (EvMessage DISCONNECT_SSE) s1).

(** [handleToggleSSE] where the script handles the popup's command before
    the [connectSSE] that the storage listener started resumes. *)
Definition handleToggleSSE_command_first (changes : gmap string StorageChange)
    (config : ConfigState) (s : State) : ConfigState * State :=
  let newEnabled := negb (sseEnabled config) in
  let config' := mkConfigState (rewardId config) newEnabled in
  let s1 := s |> set_local ({[ "sseEnabled" := JBool newEnabled ]} ∪ local s) in
  if newEnabled && truthy (Some (JStr (rewardId config))) then
    (config', s1 |> fire (EvMessage CONNECT_SSE) |> onChanged changes "local")
  else
    (config', s1 |> fire (EvMessage DISCONNECT_SSE) |> onChanged changes "local").

(** [handleSaveConfig] (lines 119-137) *)
Definition handleSaveConfig (changes : gmap string StorageChange)
    (config : ConfigState) (s : State) : State :=
  let s1 :=
    storage_set (<["configuredRewardId" := JStr (rewardId config)]>
                   {[ "sseEnabled" := JBool (sseEnabled config) ]}) changes s in
  if sseEnabled config && truthy (Some (JStr (rewardId config))) then
    fire (EvMessage CONNECT_SSE) s1
  else s1.

End Popup.

(** A page whose pause button is found by id and visible. *)
Definition amq_page : Content.Page :=
  Content.mkPage (Some (Content.mkElement "block" "visible")) None
                 true true 0 0 0 0 0 [].

(** The script after it gave up: eleven failures in a row from startup. *)
Definition gave_up : State :=
  run (failure_events 11) (defineBackground (config true "RWD-1")).

(** ** The script in service: the store as the extension writes it

    The store is written in three places only.  [handleSaveConfig] sets
    [configuredRewardId] and [sseEnabled] (App.tsx, lines 121-124); its
    button is disabled while the reward-id field is empty (lines 264-267),
    so the id it stores is not empty.  [handleToggleSSE] sets [sseEnabled]
    (line 143).  Signing in sets [twitchSession] and signing out or an
    expired session removes it (twitch-auth.ts).  Nothing removes
    [configuredRewardId]. *)
Inductive Write : Type :=
| SaveConfig (rewardId : string) (sseEnabled : bool)
| ToggleSSE (newEnabled : bool)
| StoreSession (session : Json)
| RemoveSession.

Definition permitted (w : Write) : bool :=
  match w with
  | SaveConfig rewardId _ => negb (String.eqb rewardId "")
  | _ => true
  end.

Definition written (w : Write) (st : gmap string Json) : gmap string Json :=
  match w with
  | SaveConfig rewardId sseEnabled =>
      <["configuredRewardId" := JStr rewardId]> {[ "sseEnabled" := JBool sseEnabled ]}
        ∪ st
  | ToggleSSE newEnabled => {[ "sseEnabled" := JBool newEnabled ]} ∪ st
  | StoreSession session => {[ "twitchSession" := session ]} ∪ st
  | RemoveSession => delete "twitchSession" st
  end.

Definition is_storage_event (e : Event) : bool :=
  match e with
  | EvStorage _ _ => true
  | _ => false
  end.

(** The stored reward id is absent or a non-empty string. *)
Definition reward_id_well_formed (st : gmap string Json) : Prop :=
  st !! "configuredRewardId" = None
  \/ exists f : string, f <> "" /\ st !! "configuredRewardId" = Some (JStr f).

(** The states of the script in an installed extension: the store is empty
    at installation; the script starts, and may start again later on the
    store as it is; the store changes by the writes above, each notified
    to the listener with whatever the browser lists as changed; and the
    other events fire when enabled. *)
Inductive in_service : State -> Prop :=
| in_service_installed : in_service (defineBackground ∅)
| in_service_restarted (s : State) :
    in_service s -> in_service (defineBackground (local s))
| in_service_written (w : Write) (changes : gmap string StorageChange)
    (st : gmap string Json) (s : State) :
    in_service s -> permitted w = true -> st = written w (local s) ->
    in_service (fire (EvStorage st changes) s)
| in_service_fired (e : Event) (s : State) :
    in_service s -> is_storage_event e = false -> enabled e s = true ->
    in_service (fire e s).

(** Installed, signed in, reward id RWD-1 saved with the connection on, and
    the stream open. *)
Definition signed_in_store : gmap string Json :=
  written (StoreSession session) ∅.

Definition saved_store : gmap string Json :=
  written (SaveConfig "RWD-1" true) signed_in_store.

Definition streaming : State :=
  defineBackground ∅
    |> fire (EvStorage signed_in_store (change_of "twitchSession" ∅ signed_in_store))
    |> fire (EvStorage saved_store
               (change_of "configuredRewardId" signed_in_store saved_store))
    |> fire EvOpen.

(** A stream open while a reconnect from an earlier failure is still
    pending: after one failure, a Start and the stream opening. *)
Definition open_with_stale_reconnect : State :=
  reconnecting |> fire (EvMessage CONNECT_SSE) |> fire EvOpen.

(** * Basic facts *)

Ltac count_trace :=
  unfold constructed, closes; simpl;
  rewrite ?List.filter_app, ?length_app; simpl; lia.

Lemma storage_get_lookup (keys : list string) (st : gmap string Json) (k : string) :
  k ∈ keys -> storage_get keys st !! k = st !! k.
Proof.
  intros Hk. unfold storage_get.
  destruct (st !! k) as [v|] eqn:E.
  - apply map_lookup_filter_Some. split; [exact E | exact Hk].
  - apply map_lookup_filter_None. left. exact E.
Qed.

Lemma connectSSE_gate (s : State) :
  connectSSE s =
    if negb (enabled_setting (local s)) then
      s |> console LLog "SSE is disabled in settings" []
    else if negb (filter_configured (local s)) then
      s |> console LLog "No reward ID configured, SSE not starting" []
    else if negb (credential_present (local s)) then
      s |> console LWarn "No active session found, SSE not starting" []
        |> console LWarn "Please sign in with Twitch first" []
    else s |> close_existing |> open_stream.
Proof.
  unfold connectSSE, enabled_setting, filter_configured, credential_present.
  rewrite !storage_get_lookup by set_solver.
  reflexivity.
Qed.

Lemma gate_false_iff (st : gmap string Json) :
  gate st = false <->
  enabled_setting st = false \/ credential_present st = false
  \/ filter_configured st = false.
Proof.
  unfold gate.
  destruct (enabled_setting st), (filter_configured st), (credential_present st);
    simpl; intuition congruence.
Qed.

(** A refused [connectSSE] touches nothing but the console. *)
Lemma connectSSE_refused (s : State) :
  gate (local s) = false ->
  eventSource (connectSSE s) = eventSource s
  /\ reconnectAttempts (connectSSE s) = reconnectAttempts s
  /\ timers (connectSSE s) = timers s
  /\ local (connectSSE s) = local s
  /\ exists lines, trace (connectSSE s) = trace s ++ lines
                   /\ forallb quiet_line lines = true.
Proof.
  intros Hg. rewrite connectSSE_gate. unfold gate in Hg.
  destruct (enabled_setting (local s)); simpl.
  - destruct (filter_configured (local s)); simpl.
    + destruct (credential_present (local s)); simpl; [discriminate|].
      repeat split.
      exists [Console LWarn "No active session found, SSE not starting" [];
              Console LWarn "Please sign in with Twitch first" []].
      split; [|reflexivity]. now rewrite <- app_assoc.
    + repeat split. eexists. split; reflexivity.
  - repeat split. eexists. split; reflexivity.
Qed.

(** An accepted [connectSSE] replaces whatever transport there was. *)
Lemma connectSSE_accepted (s : State) :
  gate (local s) = true ->
  connectSSE s = (s |> close_existing |> open_stream).
Proof.
  intros Hg. rewrite connectSSE_gate. unfold gate in Hg.
  destruct (enabled_setting (local s)); [|discriminate].
  destruct (filter_configured (local s)); [|discriminate].
  destruct (credential_present (local s)); [|discriminate].
  reflexivity.
Qed.

Lemma constructed_quiet (t lines : list Effect) :
  forallb quiet_line lines = true ->
  length (List.filter is_NewEventSource (t ++ lines)) =
  length (List.filter is_NewEventSource t).
Proof.
  intros H. rewrite List.filter_app, length_app.
  assert (List.filter is_NewEventSource lines = []) as ->.
  { induction lines as [|e lines IH]; [reflexivity|].
    simpl in H. apply andb_prop in H as [He Hl].
    destruct e; simpl in *; try discriminate. auto. }
  simpl. lia.
Qed.

(** * C1: a refused Start *)

(** In part_002, each of the three guards refuses a Start: nothing is
    constructed and only lines below the error level are logged. *)
Lemma connectSSE_start_refused (s : State) :
  enabled_setting (local s) = false \/ credential_present (local s) = false
  \/ filter_configured (local s) = false ->
  forall s' : State,
    s' = fst (onMessage CONNECT_SSE s) \/ s' = connectSSE s ->
    constructed s' = constructed s
    /\ eventSource s' = eventSource s
    /\ reconnectAttempts s' = reconnectAttempts s
    /\ timers s' = timers s
    /\ (exists lines, trace s' = trace s ++ lines
                      /\ forallb quiet_line lines = true)
    /\ (at_rest s -> at_rest s')
    /\ at_rest (defineBackground (local s))
    /\ constructed (defineBackground (local s)) = 0%nat.
Proof.
  intros Hcfg s' Hs'.
  apply gate_false_iff in Hcfg.
  assert (s' = connectSSE s) as -> by (destruct Hs' as [->| ->]; reflexivity).
  destruct (connectSSE_refused s Hcfg) as (Hes & Hra & Htm & _ & lines & Htr & Hq).
  destruct (connectSSE_refused
              (console LLog "Background script started" []
                 (mkState None 0 0 (local s) [])) Hcfg)
    as (Hes0 & _ & Htm0 & _ & lines0 & Htr0 & Hq0).
  split; [unfold constructed; rewrite Htr; now apply constructed_quiet|].
  split; [exact Hes|]. split; [exact Hra|]. split; [exact Htm|].
  split; [exists lines; split; assumption|].
  split; [unfold at_rest; intros [H1 H2]; rewrite Hes, Htm; split; assumption|].
  unfold defineBackground. split.
  - split; [rewrite Hes0|rewrite Htm0]; reflexivity.
  - unfold constructed. rewrite Htr0, constructed_quiet by assumption.
    reflexivity.
Qed.

(** The earlier revision has the first two guards only: it refuses on a
    falsy [sseEnabled] and on an empty reward id, and reads no session. *)
Lemma earlier_connectSSE_refused (cookies : Settled (list Json)) (s : State) :
  enabled_setting (local s) = false \/ filter_configured (local s) = false ->
  eventSource (Part001.connectSSE cookies s) = eventSource s
  /\ reconnectAttempts (Part001.connectSSE cookies s) = reconnectAttempts s
  /\ timers (Part001.connectSSE cookies s) = timers s
  /\ constructed (Part001.connectSSE cookies s) = constructed s.
Proof.
  unfold Part001.connectSSE, enabled_setting, filter_configured.
  rewrite !storage_get_lookup by set_solver.
  intros [H|H].
  - rewrite H. simpl. repeat split. count_trace.
  - rewrite H. destruct (truthy (local s !! "sseEnabled")); simpl;
      repeat split; count_trace.
Qed.

(** C1 (amended). In both revisions of the script a Start is refused
    whenever [sseEnabled] is falsy or the reward id is empty or absent, and
    in part_002 also whenever the store has no session user id: the
    [CONNECT_SSE] command or a direct call of [connectSSE], as at startup,
    then constructs no [EventSource] and leaves the transport, the retry
    counter and the pending timers as they were, so a connector at rest
    stays at rest.  In part_002 only lines below the error level are
    logged, and the startup call ends at rest with nothing constructed.
    (part_001 reads no session and has no third guard.) *)
Theorem C1_start_refused_in_each_revision
    (s : State) (cookies : Settled (list Json)) :
  (enabled_setting (local s) = false \/ credential_present (local s) = false
   \/ filter_configured (local s) = false ->
   forall s' : State,
     s' = fst (onMessage CONNECT_SSE s) \/ s' = connectSSE s ->
     constructed s' = constructed s
     /\ eventSource s' = eventSource s
     /\ reconnectAttempts s' = reconnectAttempts s
     /\ timers s' = timers s
     /\ (exists lines, trace s' = trace s ++ lines
                       /\ forallb quiet_line lines = true)
     /\ (at_rest s -> at_rest s')
     /\ at_rest (defineBackground (local s))
     /\ constructed (defineBackground (local s)) = 0%nat)
  /\ (enabled_setting (local s) = false \/ filter_configured (local s) = false ->
      constructed (Part001.connectSSE cookies s) = constructed s
      /\ eventSource (Part001.connectSSE cookies s) = eventSource s
      /\ reconnectAttempts (Part001.connectSSE cookies s) = reconnectAttempts s
      /\ timers (Part001.connectSSE cookies s) = timers s
      /\ (at_rest s -> at_rest (Part001.connectSSE cookies s))).
Proof.
  split.
  - apply connectSSE_start_refused.
  - intros Hcfg.
    destruct (earlier_connectSSE_refused cookies s Hcfg) as (He & Ha & Ht & Hc).
    split; [exact Hc|]. split; [exact He|]. split; [exact Ha|].
    split; [exact Ht|].
    unfold at_rest. rewrite He, Ht. auto.
Qed.

Lemma C1_start_refused_in_each_revision_witness :
  let s := mkState None 0 0 (config false "RWD-1") [] in
  enabled_setting (local s) = false
  /\ constructed (connectSSE s) = constructed s
  /\ at_rest (connectSSE s)
  /\ constructed (Part001.connectSSE (Resolved []) s) = constructed s
  /\ at_rest (Part001.connectSSE (Resolved []) s).
Proof.
  intros s.
  assert (enabled_setting (local s) = false) as Hoff by (vm_compute; reflexivity).
  split; [exact Hoff|].
  destruct (C1_start_refused_in_each_revision s (Resolved [])) as [H2 H1].
  destruct (H2 (or_introl Hoff) (connectSSE s) (or_intror eq_refl))
    as (Hc & _ & _ & _ & _ & Hrest & _).
  destruct (H1 (or_introl Hoff)) as (Hc1 & _ & _ & _ & Hrest1).
  assert (at_rest s) as Hs by (split; reflexivity).
  split; [exact Hc|]. split; [exact (Hrest Hs)|].
  split; [exact Hc1|exact (Hrest1 Hs)].
Defined.

(** C1 as stated fails on part_001: signed out, with [sseEnabled] set and a
    reward id stored, its [connectSSE] constructs an [EventSource] and the
    connector is connecting, where part_002 refuses. *)
Lemma C1_counterexample :
  let s := mkState None 0 0 (signed_out true "RWD-1") [] in
  credential_present (local s) = false
  /\ at_rest s
  /\ constructed (Part001.connectSSE (Resolved []) s) = 1%nat
  /\ eventSource (Part001.connectSSE (Resolved []) s)
     = Some (mkEventSource CONNECTING)
  /\ ~ at_rest (Part001.connectSSE (Resolved []) s)
  /\ constructed (connectSSE s) = 0%nat.
Proof.
  cbv zeta.
  split; [vm_compute; reflexivity|]. split; [split; reflexivity|].
  split; [vm_compute; reflexivity|]. split; [vm_compute; reflexivity|].
  split; [|vm_compute; reflexivity].
  intros [H _]. vm_compute in H. discriminate.
Qed.

(** * Frame facts about the handlers *)

Lemma connectSSE_frame (s : State) :
  reconnectAttempts (connectSSE s) = reconnectAttempts s
  /\ timers (connectSSE s) = timers s
  /\ local (connectSSE s) = local s.
Proof.
  destruct (gate (local s)) eqn:Hg.
  - rewrite (connectSSE_accepted s Hg).
    unfold close_existing. destruct (eventSource s); repeat split.
  - destruct (connectSSE_refused s Hg) as (_ & H1 & H2 & H3 & _). auto.
Qed.

Lemma connectSSE_connects (s : State) :
  gate (local s) = true ->
  eventSource (connectSSE s) = Some (mkEventSource CONNECTING)
  /\ constructed (connectSSE s) = S (constructed s)
  /\ closes (connectSSE s) =
       (closes s + match eventSource s with Some _ => 1 | None => 0 end)%nat.
Proof.
  intros Hg. rewrite (connectSSE_accepted s Hg).
  unfold close_existing, open_stream.
  destruct (eventSource s); (split; [reflexivity|]); split; count_trace.
Qed.

Lemma connectSSE_refused_counts (s : State) :
  gate (local s) = false ->
  constructed (connectSSE s) = constructed s /\ closes (connectSSE s) = closes s.
Proof.
  intros Hg. destruct (connectSSE_refused s Hg) as (_ & _ & _ & _ & lines & Htr & Hq).
  unfold constructed, closes. rewrite Htr, !List.filter_app, !length_app.
  assert (List.filter is_NewEventSource lines = []
          /\ List.filter is_Close lines = []) as [-> ->].
  { clear Htr. induction lines as [|e lines IH]; [split; reflexivity|].
    simpl in Hq. apply andb_prop in Hq as [He Hl].
    destruct e; simpl in *; try discriminate. auto. }
  simpl. lia.
Qed.

Lemma onerror_with_spec (max : Z) (s : State) :
  eventSource (onerror_with max s) = None
  /\ local (onerror_with max s) = local s
  /\ constructed (onerror_with max s) = constructed s
  /\ (if (reconnectAttempts s <? max)%Z
      then reconnectAttempts (onerror_with max s) = (reconnectAttempts s + 1)%Z
           /\ timers (onerror_with max s) = S (timers s)
      else reconnectAttempts (onerror_with max s) = reconnectAttempts s
           /\ timers (onerror_with max s) = timers s).
Proof.
  unfold onerror_with, schedule_reconnect, drop_stream, closed_by_server.
  destruct s as [[[[]]|] a t l tr]; simpl;
    destruct (a <? max)%Z; simpl;
    (split; [reflexivity|]); (split; [reflexivity|]);
    (split; [count_trace|]); split; reflexivity.
Qed.

Lemma send_to_tabs_frame (b : Browser) (d : Json) (tabs : list Tab) (s : State) :
  eventSource (send_to_tabs b d tabs s) = eventSource s
  /\ reconnectAttempts (send_to_tabs b d tabs s) = reconnectAttempts s
  /\ timers (send_to_tabs b d tabs s) = timers s
  /\ local (send_to_tabs b d tabs s) = local s
  /\ constructed (send_to_tabs b d tabs s) = constructed s
  /\ closes (send_to_tabs b d tabs s) = closes s.
Proof.
  revert s. induction tabs as [|tab tabs IH]; intros s; simpl.
  - repeat split.
  - destruct (IH (send_to_tab b d tab s)) as (-> & -> & -> & -> & -> & ->).
    unfold send_to_tab.
    destruct (tab_id tab) as [id|]; [|repeat split].
    destruct (truthy (Some (JNum id))); [|repeat split].
    destruct (tabs_sendMessage b id (pause_message d));
      (do 4 (split; [reflexivity|])); split; count_trace.
Qed.

Lemma sendPauseToAMQ_frame (b : Browser) (d : Json) (s : State) :
  eventSource (sendPauseToAMQ b d s) = eventSource s
  /\ reconnectAttempts (sendPauseToAMQ b d s) = reconnectAttempts s
  /\ timers (sendPauseToAMQ b d s) = timers s
  /\ local (sendPauseToAMQ b d s) = local s
  /\ constructed (sendPauseToAMQ b d s) = constructed s
  /\ closes (sendPauseToAMQ b d s) = closes s.
Proof.
  unfold sendPauseToAMQ.
  destruct (tabs_query b) as [tabs|reason].
  - destruct (length tabs =? 0)%nat.
    + (do 4 (split; [reflexivity|])); split; count_trace.
    + destruct (send_to_tabs_frame b d tabs (emit TabsQuery s))
        as (-> & -> & -> & -> & -> & ->).
      (do 4 (split; [reflexivity|])); split; count_trace.
  - (do 4 (split; [reflexivity|])); split; count_trace.
Qed.

Lemma pause_listener_frame (b : Browser) (event : MessageEvent) (s : State) :
  eventSource (fst (pause_listener b event s)) = eventSource s
  /\ reconnectAttempts (fst (pause_listener b event s)) = reconnectAttempts s
  /\ timers (fst (pause_listener b event s)) = timers s.
Proof.
  unfold pause_listener.
  destruct (data event) as [|d]; [repeat split|].
  destruct (member d "rewardId") as [rewardId|]; [|repeat split].
  destruct (negb _); [repeat split|]. simpl.
  destruct (sendPauseToAMQ_frame b d
              (console LLog "Reward ID matches! Sending pause command" []
                 (console LLog "Received pause event:" [d] s)))
    as (-> & -> & -> & _).
  repeat split.
Qed.

(** * C2: the retry budget *)

Lemma set_readyState_frame (rs : ReadyState) (s : State) :
  reconnectAttempts (set_readyState rs s) = reconnectAttempts s
  /\ timers (set_readyState rs s) = timers s
  /\ local (set_readyState rs s) = local s
  /\ constructed (set_readyState rs s) = constructed s.
Proof. unfold set_readyState. destruct (eventSource s); repeat split. Qed.

Lemma failure_with_spec (max : Z) (rs : ReadyState) (s : State) :
  gate (local s) = true -> armed s ->
  eventSource (failure_with max rs s) = None
  /\ local (failure_with max rs s) = local s
  /\ constructed (failure_with max rs s) = (constructed s + timers s)%nat
  /\ (if (reconnectAttempts s <? max)%Z
      then reconnectAttempts (failure_with max rs s) = (reconnectAttempts s + 1)%Z
           /\ timers (failure_with max rs s) = 1%nat
      else reconnectAttempts (failure_with max rs s) = reconnectAttempts s
           /\ timers (failure_with max rs s) = 0%nat).
Proof.
  intros Hg Harmed. unfold failure_with.
  set (s1 := timer_fires s).
  assert (reconnectAttempts s1 = reconnectAttempts s /\ timers s1 = 0%nat
          /\ local s1 = local s
          /\ constructed s1 = (constructed s + timers s)%nat) as (Ha & Ht & Hl & Hc).
  { subst s1. unfold timer_fires.
    destruct Harmed as [[_ Ht]|[_ Ht]]; rewrite Ht.
    - repeat split; lia.
    - destruct (connectSSE_frame (set_timers 0 s)) as (-> & -> & ->).
      destruct (connectSSE_connects (set_timers 0 s) Hg) as (_ & -> & _).
      repeat split. unfold constructed. simpl. lia. }
  destruct (set_readyState_frame rs s1) as (Ha' & Ht' & Hl' & Hc').
  destruct (onerror_with_spec max (set_readyState rs s1)) as (He & Hl2 & Hc2 & Hb).
  rewrite Ha', Ht' in Hb. rewrite Ha, Ht in Hb.
  split; [exact He|]. split; [congruence|]. split; [congruence|]. exact Hb.
Qed.

(** At the script's bound, one failure of the run is the timer event
    followed by the error event of the transition system. *)
Lemma failure_with_is_fire (rs : ReadyState) (s : State) :
  failure_with MAX_RECONNECT_ATTEMPTS rs s = fire (EvError rs) (fire EvTimer s).
Proof. reflexivity. Qed.

Lemma consecutive_failures_below (max : Z) (rss : list ReadyState) (s : State) :
  gate (local s) = true -> armed s -> rss <> [] ->
  (reconnectAttempts s + Z.of_nat (length rss) <= max)%Z ->
  eventSource (consecutive_failures max rss s) = None
  /\ timers (consecutive_failures max rss s) = 1%nat
  /\ reconnectAttempts (consecutive_failures max rss s)
     = (reconnectAttempts s + Z.of_nat (length rss))%Z
  /\ local (consecutive_failures max rss s) = local s
  /\ constructed (consecutive_failures max rss s)
     = (constructed s + timers s + (length rss - 1))%nat.
Proof.
  revert s. induction rss as [|rs rest IH]; intros s Hg Harmed Hne Hle;
    [congruence|].
  simpl in Hle. simpl consecutive_failures.
  destruct (failure_with_spec max rs s Hg Harmed) as (He & Hl & Hc & Hb).
  destruct (Z.ltb_spec (reconnectAttempts s) max) as [_|Hge]; [|lia].
  destruct Hb as [Ha Ht].
  destruct rest as [|rs' rest'].
  - simpl. repeat split; try assumption; lia.
  - destruct (IH (failure_with max rs s)) as (He' & Ht' & Ha' & Hl' & Hc').
    + congruence.
    + right. split; assumption.
    + discriminate.
    + rewrite Ha. simpl length in *. lia.
    + split; [exact He'|]. split; [exact Ht'|].
      split; [rewrite Ha', Ha; simpl length; lia|].
      split; [congruence|].
      rewrite Hc', Hc, Ht. simpl length. lia.
Qed.

(** C2 (amended). From [reconnectAttempts = 0] with a transport in place,
    no reconnect pending and a configuration that passes the gate, and with
    no other event in between, [max >= 1] consecutive failures leave
    [reconnectAttempts = max] with no transport and one reconnect still
    pending; that reconnect fires by itself and constructs a further
    [EventSource].  Only the next failure, the ([max]+1)-th, leaves the
    connector at rest: no transport, nothing pending, the status reporting
    [connected: false] and [reconnectAttempts: max], [max] reconnects made
    in all, and a timer tick changing nothing. *)
Theorem C2_gives_up_after_max_reconnects
    (max : Z) (rss : list ReadyState) (rs : ReadyState) (s : State) :
  gate (local s) = true ->
  is_Some (eventSource s) -> timers s = 0%nat -> reconnectAttempts s = 0%Z ->
  (0 < max)%Z -> Z.of_nat (length rss) = max ->
  let s1 := consecutive_failures max rss s in
  let s2 := failure_with max rs s1 in
  (eventSource s1 = None /\ reconnectAttempts s1 = max /\ timers s1 = 1%nat
   /\ eventSource (timer_fires s1) = Some (mkEventSource CONNECTING)
   /\ constructed (timer_fires s1) = S (constructed s1))
  /\ (at_rest s2 /\ reconnectAttempts s2 = max
      /\ status_response s2
         = JObj [("connected", JBool false); ("reconnectAttempts", JNum max)]
      /\ timer_fires s2 = s2
      /\ constructed s2 = (constructed s + Z.to_nat max)%nat).
Proof.
  intros Hg Hes Ht Ha Hmax Hlen s1 s2.
  assert (rss <> []) as Hne by (intros ->; simpl in Hlen; lia).
  destruct (consecutive_failures_below max rss s Hg) as (He1 & Ht1 & Ha1 & Hl1 & Hc1).
  { left. split; assumption. }
  { exact Hne. }
  { lia. }
  fold s1 in He1, Ht1, Ha1, Hl1, Hc1.
  assert (gate (local s1) = true) as Hg1 by (rewrite Hl1; exact Hg).
  assert (reconnectAttempts s1 = max) as Ha1' by lia.
  split.
  - split; [exact He1|]. split; [exact Ha1'|]. split; [exact Ht1|].
    unfold timer_fires. rewrite Ht1.
    destruct (connectSSE_connects (set_timers 0 s1) Hg1) as (-> & -> & _).
    split; reflexivity.
  - destruct (failure_with_spec max rs s1 Hg1) as (He2 & Hl2 & Hc2 & Hb).
    { right. split; assumption. }
    fold s2 in He2, Hl2, Hc2, Hb.
    destruct (Z.ltb_spec (reconnectAttempts s1) max) as [Hlt|_]; [lia|].
    destruct Hb as [Ha2 Ht2].
    split; [split; assumption|]. split; [congruence|].
    split; [unfold status_response, connected; rewrite He2, Ha2, Ha1'; reflexivity|].
    split; [unfold timer_fires; rewrite Ht2; reflexivity|].
    rewrite Hc2, Hc1, Ht, Ht1. lia.
Qed.

Lemma C2_gives_up_after_max_reconnects_witness :
  let s1 := consecutive_failures 2 [CLOSED; CONNECTING] opened in
  let s2 := failure_with 2 CLOSED s1 in
  (eventSource s1 = None /\ reconnectAttempts s1 = 2%Z /\ timers s1 = 1%nat
   /\ eventSource (timer_fires s1) = Some (mkEventSource CONNECTING)
   /\ constructed (timer_fires s1) = S (constructed s1))
  /\ (at_rest s2 /\ reconnectAttempts s2 = 2%Z
      /\ status_response s2
         = JObj [("connected", JBool false); ("reconnectAttempts", JNum 2)]
      /\ timer_fires s2 = s2
      /\ constructed s2 = (constructed opened + Z.to_nat 2)%nat).
Proof.
  apply (C2_gives_up_after_max_reconnects 2 [CLOSED; CONNECTING] CLOSED opened).
  - vm_compute. reflexivity.
  - vm_compute. eexists. reflexivity.
  - vm_compute. reflexivity.
  - vm_compute. reflexivity.
  - lia.
  - reflexivity.
Defined.

(** C2 as stated fails.  At the script's bound of 10, ten consecutive
    failures after startup leave a reconnect pending, which then constructs
    an eleventh [EventSource]; and at a bound of 2, two consecutive failures
    leave [reconnectAttempts = 2] with a reconnect pending, and the third
    connection is made with no Start from outside. *)
Lemma C2_counterexample :
  (let s := run (failure_events 10) (defineBackground (config true "RWD-1")) in
   reconnectAttempts s = 10%Z /\ timers s = 1%nat /\ ~ at_rest s
   /\ enabled EvTimer s = true
   /\ constructed s = 10%nat /\ constructed (fire EvTimer s) = 11%nat)
  /\ (let s := consecutive_failures 2 [CLOSED; CLOSED] opened in
      reconnectAttempts s = 2%Z /\ timers s = 1%nat /\ ~ at_rest s
      /\ constructed s = 2%nat /\ constructed (timer_fires s) = 3%nat).
Proof.
  split; cbv zeta.
  - repeat split; try (vm_compute; reflexivity).
    intros [_ H]. vm_compute in H. discriminate.
  - repeat split; try (vm_compute; reflexivity).
    intros [_ H]. vm_compute in H. discriminate.
Qed.

(** Why C2 asks for no reconnect pending at the start: a reconnect left
    over from an earlier failure is not cancelled by the Start and the open
    that follow it, and it is still pending after the script has given up
    on the eleventh failure in a row; it then fires and connects. *)
Lemma stale_reconnect_outlives_giving_up :
  let s := run (failure_events 11) open_with_stale_reconnect in
  reconnectAttempts open_with_stale_reconnect = 0%Z
  /\ connected open_with_stale_reconnect = true
  /\ timers open_with_stale_reconnect = 1%nat
  /\ reconnectAttempts s = 10%Z
  /\ eventSource s = None
  /\ timers s = 1%nat
  /\ constructed (fire EvTimer s) = S (constructed s).
Proof.
  cbv zeta.
  do 6 (split; [vm_compute; reflexivity|]).
  vm_compute. reflexivity.
Qed.

(** * C3, C4, C5: configuration changes and Stop *)

Lemma disconnect_spec (s : State) :
  eventSource (disconnect s) = None
  /\ reconnectAttempts (disconnect s) = reconnectAttempts s
  /\ timers (disconnect s) = timers s
  /\ local (disconnect s) = local s
  /\ constructed (disconnect s) = constructed s
  /\ closes (disconnect s) =
       (closes s + match eventSource s with Some _ => 1 | None => 0 end)%nat.
Proof.
  unfold disconnect. destruct s as [[es|] a t l tr]; simpl;
    (do 4 (split; [reflexivity|])); split; count_trace.
Qed.

(** The listener on a change of the local area that it reacts to. *)
Lemma onChanged_reacts (st : gmap string Json) (changes : gmap string StorageChange)
    (s : State) :
  changed changes "sseEnabled" || changed changes "configuredRewardId" = true ->
  fire (EvStorage st changes) s =
    connectSSE (console LLog "Configuration changed, reconnecting SSE" []
                  (set_local st s)).
Proof. intros H. simpl. unfold onChanged. simpl. rewrite H. reflexivity. Qed.

Lemma storage_change_refused (st : gmap string Json)
    (changes : gmap string StorageChange) (s : State) :
  gate st = false ->
  eventSource (fire (EvStorage st changes) s) = eventSource s
  /\ reconnectAttempts (fire (EvStorage st changes) s) = reconnectAttempts s
  /\ timers (fire (EvStorage st changes) s) = timers s
  /\ local (fire (EvStorage st changes) s) = st
  /\ constructed (fire (EvStorage st changes) s) = constructed s
  /\ closes (fire (EvStorage st changes) s) = closes s.
Proof.
  intros Hg.
  destruct (changed changes "sseEnabled" || changed changes "configuredRewardId")
    eqn:Hch.
  - rewrite (onChanged_reacts st changes s Hch).
    set (s0 := console LLog "Configuration changed, reconnecting SSE" []
                 (set_local st s)).
    assert (gate (local s0) = false) as Hg0 by exact Hg.
    destruct (connectSSE_refused s0 Hg0) as (-> & -> & -> & -> & _).
    destruct (connectSSE_refused_counts s0 Hg0) as (-> & ->).
    subst s0. (do 4 (split; [reflexivity|])). split; count_trace.
  - simpl. unfold onChanged. simpl. rewrite Hch. repeat split.
Qed.

Lemma timer_refused (s : State) :
  gate (local s) = false ->
  eventSource (fire EvTimer s) = eventSource s
  /\ reconnectAttempts (fire EvTimer s) = reconnectAttempts s
  /\ constructed (fire EvTimer s) = constructed s.
Proof.
  intros Hg. simpl. unfold timer_fires.
  destruct (timers s) as [|n]; [repeat split|].
  assert (gate (local (set_timers n s)) = false) as Hg0 by exact Hg.
  destruct (connectSSE_refused _ Hg0) as (-> & -> & _).
  destruct (connectSSE_refused_counts _ Hg0) as (-> & _).
  repeat split.
Qed.

Lemma enabled_false_gate (st : gmap string Json) :
  enabled_setting st = false -> gate st = false.
Proof. intros H. unfold gate. rewrite H. reflexivity. Qed.

(** C3 (amended). When the stored configuration becomes [sseEnabled] falsy,
    the storage-change listener leaves the connector as it is: the transport
    if any is kept and not closed, pending reconnects stay pending, and
    [reconnectAttempts] keeps its value.  A pending reconnect that fires
    under this configuration creates no connection.  The transport is torn
    down by the [DISCONNECT_SSE] command (which the popup sends with the
    change), and that command too leaves [reconnectAttempts] and the
    pending reconnects as they are. *)
Theorem C3_disable_does_not_tear_down
    (s : State) (st : gmap string Json) (changes : gmap string StorageChange) :
  enabled_setting st = false ->
  let s1 := fire (EvStorage st changes) s in
  let s2 := fire EvTimer s1 in
  let s3 := fire (EvMessage DISCONNECT_SSE) s1 in
  (eventSource s1 = eventSource s /\ closes s1 = closes s
   /\ constructed s1 = constructed s
   /\ timers s1 = timers s /\ reconnectAttempts s1 = reconnectAttempts s)
  /\ (eventSource s2 = eventSource s /\ constructed s2 = constructed s)
  /\ (eventSource s3 = None /\ timers s3 = timers s
      /\ reconnectAttempts s3 = reconnectAttempts s).
Proof.
  intros Hen s1 s2 s3.
  pose proof (enabled_false_gate st Hen) as Hg.
  destruct (storage_change_refused st changes s Hg) as (He & Ha & Ht & Hl & Hc & Hx).
  fold s1 in He, Ha, Ht, Hl, Hc, Hx.
  split; [repeat split; assumption|]. split.
  - assert (gate (local s1) = false) as Hg1 by (rewrite Hl; exact Hg).
    destruct (timer_refused s1 Hg1) as (He2 & _ & Hc2).
    subst s2. split; congruence.
  - subst s3. change (fire (EvMessage DISCONNECT_SSE) s1) with (disconnect s1).
    destruct (disconnect_spec s1) as (-> & -> & -> & _).
    repeat split; assumption.
Qed.

Lemma C3_disable_does_not_tear_down_witness :
  let s1 := fire (EvStorage (config false "RWD-1")
                    (change_of "sseEnabled" (config true "RWD-1") (config false "RWD-1")))
                 opened in
  let s2 := fire EvTimer s1 in
  let s3 := fire (EvMessage DISCONNECT_SSE) s1 in
  (eventSource s1 = eventSource opened /\ closes s1 = closes opened
   /\ constructed s1 = constructed opened
   /\ timers s1 = timers opened /\ reconnectAttempts s1 = reconnectAttempts opened)
  /\ (eventSource s2 = eventSource opened /\ constructed s2 = constructed opened)
  /\ (eventSource s3 = None /\ timers s3 = timers opened
      /\ reconnectAttempts s3 = reconnectAttempts opened).
Proof.
  apply (C3_disable_does_not_tear_down opened (config false "RWD-1")).
  vm_compute. reflexivity.
Defined.

(** C3 as stated fails: with the stream open, the change of [sseEnabled] to
    [false] leaves it open and unclosed; and with a reconnect pending after
    a failure, the same change leaves the reconnect pending and
    [reconnectAttempts] at 1. *)
Lemma C3_counterexample :
  let off := EvStorage (config false "RWD-1")
               (change_of "sseEnabled" (config true "RWD-1") (config false "RWD-1")) in
  (connected opened = true
   /\ connected (fire off opened) = true
   /\ closes (fire off opened) = 0%nat
   /\ ~ at_rest (fire off opened))
  /\ (timers (fire off reconnecting) = 1%nat
      /\ reconnectAttempts (fire off reconnecting) = 1%Z
      /\ ~ at_rest (fire off reconnecting)).
Proof.
  cbv zeta. split.
  - split; [vm_compute; reflexivity|]. split; [vm_compute; reflexivity|].
    split; [vm_compute; reflexivity|].
    intros [H _]. vm_compute in H. discriminate.
  - split; [vm_compute; reflexivity|]. split; [vm_compute; reflexivity|].
    intros [_ H]. vm_compute in H. discriminate.
Qed.

(** C4 (amended). [DISCONNECT_SSE] with a reconnect pending closes and drops
    the transport if there is one, and leaves the pending reconnect and
    [reconnectAttempts] as they are (with no transport, as after a failure,
    it changes nothing at all).  The pending reconnect still fires; it
    constructs an [EventSource] exactly when the stored configuration then
    passes the gate. *)
Theorem C4_stop_keeps_pending_reconnect (s : State) :
  timers s <> 0%nat ->
  let s1 := fire (EvMessage DISCONNECT_SSE) s in
  eventSource s1 = None /\ timers s1 = timers s
  /\ reconnectAttempts s1 = reconnectAttempts s
  /\ (eventSource s = None -> s1 = s)
  /\ enabled EvTimer s1 = true
  /\ (if gate (local s)
      then eventSource (fire EvTimer s1) = Some (mkEventSource CONNECTING)
           /\ constructed (fire EvTimer s1) = S (constructed s)
      else eventSource (fire EvTimer s1) = None
           /\ constructed (fire EvTimer s1) = constructed s).
Proof.
  intros Hpending s1.
  subst s1. change (fire (EvMessage DISCONNECT_SSE) s) with (disconnect s).
  destruct (disconnect_spec s) as (He & Ha & Ht & Hl & Hc & _).
  split; [exact He|]. split; [exact Ht|]. split; [exact Ha|].
  split; [intros Hnone; unfold disconnect; rewrite Hnone; reflexivity|].
  split.
  - simpl. rewrite Ht. destruct (timers s); [congruence|reflexivity].
  - destruct (gate (local s)) eqn:Hg.
    + simpl. unfold timer_fires. rewrite Ht.
      destruct (timers s) as [|n]; [congruence|].
      assert (gate (local (set_timers n (disconnect s))) = true) as Hg0
        by (simpl; rewrite Hl; exact Hg).
      destruct (connectSSE_connects _ Hg0) as (-> & -> & _).
      split; [reflexivity|]. f_equal. exact Hc.
    + assert (gate (local (disconnect s)) = false) as Hg0 by (rewrite Hl; exact Hg).
      destruct (timer_refused _ Hg0) as (-> & _ & ->).
      split; assumption.
Qed.

Lemma C4_stop_keeps_pending_reconnect_witness :
  let s1 := fire (EvMessage DISCONNECT_SSE) reconnecting in
  eventSource s1 = None /\ timers s1 = timers reconnecting
  /\ reconnectAttempts s1 = reconnectAttempts reconnecting
  /\ (eventSource reconnecting = None -> s1 = reconnecting)
  /\ enabled EvTimer s1 = true
  /\ (if gate (local reconnecting)
      then eventSource (fire EvTimer s1) = Some (mkEventSource CONNECTING)
           /\ constructed (fire EvTimer s1) = S (constructed reconnecting)
      else eventSource (fire EvTimer s1) = None
           /\ constructed (fire EvTimer s1) = constructed reconnecting).
Proof.
  apply (C4_stop_keeps_pending_reconnect reconnecting).
  vm_compute. discriminate.
Defined.

(** C4 as stated fails: after one failure a reconnect is pending with
    [reconnectAttempts = 1]; [DISCONNECT_SSE] leaves both as they are, and
    the reconnect then fires and opens a second connection. *)
Lemma C4_counterexample :
  let s1 := fire (EvMessage DISCONNECT_SSE) reconnecting in
  timers reconnecting = 1%nat
  /\ timers s1 = 1%nat
  /\ reconnectAttempts s1 = 1%Z
  /\ enabled EvTimer s1 = true
  /\ eventSource (fire EvTimer s1) = Some (mkEventSource CONNECTING)
  /\ constructed s1 = 1%nat
  /\ constructed (fire EvTimer s1) = 2%nat.
Proof. cbv zeta. repeat split; vm_compute; reflexivity. Qed.

(** C5 (amended). With the stream open, a storage change that touches
    [configuredRewardId] runs [connectSSE] on the new configuration: when
    it passes the gate (the new reward id is non-empty, [sseEnabled] and the
    session are in place) the open transport is closed and a new
    [EventSource] is constructed, which is connecting again; when it does
    not (the new reward id is empty), the open transport is kept.  Either
    way [reconnectAttempts] and the pending timers are unchanged. *)
Theorem C5_filter_change_reconnects
    (s : State) (st : gmap string Json) (changes : gmap string StorageChange) :
  connected s = true ->
  changed changes "configuredRewardId" = true ->
  let s1 := fire (EvStorage st changes) s in
  reconnectAttempts s1 = reconnectAttempts s /\ timers s1 = timers s
  /\ (if gate st
      then eventSource s1 = Some (mkEventSource CONNECTING)
           /\ connected s1 = false
           /\ closes s1 = S (closes s) /\ constructed s1 = S (constructed s)
      else eventSource s1 = eventSource s
           /\ closes s1 = closes s /\ constructed s1 = constructed s).
Proof.
  intros Hopen Hch s1.
  destruct (gate st) eqn:Hg.
  - subst s1. rewrite onChanged_reacts by (rewrite Hch; apply orb_true_r).
    set (s0 := console LLog "Configuration changed, reconnecting SSE" []
                 (set_local st s)).
    assert (gate (local s0) = true) as Hg0 by exact Hg.
    destruct (connectSSE_frame s0) as (-> & -> & _).
    destruct (connectSSE_connects s0 Hg0) as (He & -> & ->).
    unfold connected. rewrite He.
    split; [reflexivity|]. split; [reflexivity|].
    split; [reflexivity|]. split; [reflexivity|].
    assert (exists es, eventSource s = Some es) as [es Hes].
    { unfold connected in Hopen. destruct (eventSource s); [eauto|discriminate]. }
    subst s0. simpl eventSource. rewrite Hes. split; count_trace.
  - destruct (storage_change_refused st changes s Hg) as (He & Ha & Ht & _ & Hc & Hx).
    fold s1 in He, Ha, Ht, Hc, Hx. repeat split; assumption.
Qed.

Lemma C5_filter_change_reconnects_witness :
  let s1 := fire (EvStorage (config true "RWD-2")
                    (change_of "configuredRewardId"
                       (config true "RWD-1") (config true "RWD-2")))
                 opened in
  reconnectAttempts s1 = reconnectAttempts opened /\ timers s1 = timers opened
  /\ (if gate (config true "RWD-2")
      then eventSource s1 = Some (mkEventSource CONNECTING)
           /\ connected s1 = false
           /\ closes s1 = S (closes opened) /\ constructed s1 = S (constructed opened)
      else eventSource s1 = eventSource opened
           /\ closes s1 = closes opened /\ constructed s1 = constructed opened).
Proof.
  apply (C5_filter_change_reconnects opened (config true "RWD-2")).
  - vm_compute. reflexivity.
  - vm_compute. reflexivity.
Defined.

(** C5 as stated fails: with the stream open under reward id RWD-1, storing
    RWD-2 (nothing else changes) closes the open transport and constructs a
    second [EventSource], which is connecting, not open. *)
Lemma C5_counterexample :
  let s1 := fire (EvStorage (config true "RWD-2")
                    (change_of "configuredRewardId"
                       (config true "RWD-1") (config true "RWD-2")))
                 opened in
  connected opened = true
  /\ changed (change_of "configuredRewardId"
                (config true "RWD-1") (config true "RWD-2")) "sseEnabled" = false
  /\ connected s1 = false
  /\ eventSource s1 = Some (mkEventSource CONNECTING)
  /\ closes s1 = S (closes opened)
  /\ constructed s1 = S (constructed opened).
Proof. cbv zeta. repeat split; vm_compute; reflexivity. Qed.

(** * C6: the filter *)

Lemma strict_eq_string (f : string) (v : option Json) :
  strict_eq (Some (JStr f)) v = true <-> v = Some (JStr f).
Proof.
  split.
  - destruct v as [[]|]; simpl; try discriminate.
    intros H. apply String.eqb_eq in H. now subst.
  - intros ->. simpl. apply String.eqb_refl.
Qed.

(** With a string stored as reward id, an event whose payload is an object
    is delivered exactly when its [rewardId] is that same string. *)
Lemma pause_listener_filter (b : Browser) (fields : list (string * Json))
    (f : string) (s : State) :
  local s !! "configuredRewardId" = Some (JStr f) ->
  let s1 := fst (pause_listener b (mkMessageEvent (Parsed (JObj fields))) s) in
  (assoc "rewardId" fields = Some (JStr f) ->
     s1 = (s |> console LLog "Received pause event:" [JObj fields]
             |> console LLog "Reward ID matches! Sending pause command" []
             |> sendPauseToAMQ b (JObj fields)))
  /\ (assoc "rewardId" fields <> Some (JStr f) ->
        sent_to (trace s1) = sent_to (trace s)).
Proof.
  intros Hcfg s1. subst s1. unfold pause_listener. cbv zeta.
  simpl data. unfold member, get_prop. cbv iota beta.
  rewrite storage_get_lookup by set_solver.
  change (local (console LLog "Received pause event:" [JObj fields] s))
    with (local s).
  rewrite Hcfg.
  split.
  - intros Heq. rewrite Heq.
    assert (strict_eq (Some (JStr f)) (Some (JStr f)) = true) as ->
      by now apply strict_eq_string.
    reflexivity.
  - intros Hne.
    destruct (strict_eq (Some (JStr f)) (assoc "rewardId" fields)) eqn:E.
    + apply strict_eq_string in E. contradiction.
    + simpl. clear. induction (trace s) as [|e t IH]; [reflexivity|].
      simpl. destruct e; simpl; congruence.
Qed.

(** The listener by itself has no test for an empty id: were the empty
    string stored as reward id under an open stream, an event with an empty
    [rewardId] would pass the comparison.  No writer of the store puts it
    there (see [in_service]). *)
Lemma pause_listener_alone_compares_only :
  let s := set_local (config true "") opened in
  sent_to (trace (fst (pause_listener three_tabs (pause_event "") s)))
    = [7; 8; 9]%Z.
Proof. vm_compute. reflexivity. Qed.

(** * C7: delivery *)

Lemma sent_to_app (t1 t2 : list Effect) :
  sent_to (t1 ++ t2) = sent_to t1 ++ sent_to t2.
Proof.
  induction t1 as [|e t1 IH]; [reflexivity|].
  simpl. destruct e; simpl; rewrite IH; reflexivity.
Qed.

Lemma sent_to_deliveries (b : Browser) (d : Json) (ids : list Z) :
  sent_to (deliveries b d ids) = ids.
Proof.
  induction ids as [|id ids IH]; [reflexivity|].
  simpl. unfold outcome_line at 1.
  destruct (tabs_sendMessage b id (pause_message d)); simpl; now rewrite IH.
Qed.

Lemma deliveries_split (b : Browser) (d : Json) (ids : list Z) (id : Z) :
  In id ids ->
  exists l r, deliveries b d ids
              = l ++ SendMessage id (pause_message d) :: outcome_line b d id :: r.
Proof.
  induction ids as [|id' ids IH]; intros Hin; [contradiction|].
  destruct Hin as [->|Hin].
  - exists [], (deliveries b d ids). reflexivity.
  - destruct (IH Hin) as (l & r & Hd).
    exists (SendMessage id' (pause_message d) :: outcome_line b d id' :: l), r.
    change (deliveries b d (id' :: ids))
      with (SendMessage id' (pause_message d) :: outcome_line b d id'
              :: deliveries b d ids).
    rewrite Hd. reflexivity.
Qed.

Lemma send_to_tabs_trace (b : Browser) (d : Json) (tabs : list Tab) (s : State) :
  trace (send_to_tabs b d tabs s) = trace s ++ deliveries b d (targets tabs).
Proof.
  revert s. induction tabs as [|tab tabs IH]; intros s.
  - simpl. now rewrite app_nil_r.
  - cbn [send_to_tabs targets]. rewrite IH. unfold send_to_tab.
    destruct (tab_id tab) as [id|]; [|reflexivity].
    destruct (truthy (Some (JNum id))); [|reflexivity].
    assert (deliveries b d (id :: targets tabs)
            = SendMessage id (pause_message d) :: outcome_line b d id
                :: deliveries b d (targets tabs)) as -> by reflexivity.
    unfold outcome_line at 1.
    destruct (tabs_sendMessage b id (pause_message d));
      cbn [trace console emit]; rewrite <- !app_assoc; reflexivity.
Qed.

Lemma sendPauseToAMQ_trace (b : Browser) (d : Json) (tabs : list Tab) (s : State) :
  tabs_query b = Resolved tabs ->
  trace (sendPauseToAMQ b d s) =
    trace s ++ TabsQuery ::
      match tabs with
      | [] => [Console LWarn "No AMQ tabs found" []]
      | _ => deliveries b d (targets tabs)
      end.
Proof.
  intros Hq. unfold sendPauseToAMQ. rewrite Hq.
  destruct tabs as [|tab tabs].
  - simpl. now rewrite <- app_assoc.
  - change (length (tab :: tabs) =? 0)%nat with false. cbv iota.
    rewrite send_to_tabs_trace. simpl trace. now rewrite <- app_assoc.
Qed.

(** C7. Whatever the tabs found and however each [tabs.sendMessage]
    settles, [sendPauseToAMQ] sends to every target exactly once, in the
    order of the query, so a rejected send stops none of the others and is
    not repeated; each send is followed in the trace by the console line
    reporting how that one settled; and the connection is not touched: the
    transport, [reconnectAttempts] and the timers are as before, nothing is
    closed and nothing constructed. *)
Theorem C7_delivery_failures_are_isolated
    (send : Z -> Json -> Settled Json) (tabs : list Tab) (d : Json) (s : State) :
  let b := mkBrowser (Resolved tabs) send in
  let s1 := sendPauseToAMQ b d s in
  sent_to (trace s1) = sent_to (trace s) ++ targets tabs
  /\ (forall id : Z, In id (targets tabs) ->
        exists before after,
          trace s1 = before ++ SendMessage id (pause_message d)
                              :: outcome_line b d id :: after)
  /\ eventSource s1 = eventSource s
  /\ reconnectAttempts s1 = reconnectAttempts s
  /\ timers s1 = timers s
  /\ closes s1 = closes s
  /\ constructed s1 = constructed s.
Proof.
  intros b s1.
  pose proof (sendPauseToAMQ_trace b d tabs s eq_refl) as Htr. fold s1 in Htr.
  destruct (sendPauseToAMQ_frame b d s) as (He & Ha & Ht & _ & Hc & Hx).
  fold s1 in He, Ha, Ht, Hc, Hx.
  split; [|split; [|repeat split; assumption]].
  - rewrite Htr, sent_to_app. f_equal.
    destruct tabs as [|tab tabs]; [reflexivity|].
    simpl sent_to at 1. apply sent_to_deliveries.
  - intros id Hin.
    destruct (deliveries_split b d (targets tabs) id Hin) as (l & r & Hd).
    destruct tabs as [|tab tabs]; [contradiction|].
    rewrite Htr, Hd.
    exists (trace s ++ TabsQuery :: l), r.
    rewrite <- app_assoc. reflexivity.
Qed.

Lemma C7_delivery_failures_are_isolated_witness :
  let s1 := sendPauseToAMQ three_tabs (JObj [("rewardId", JStr "RWD-1")]) opened in
  sent_to (trace s1) = [7; 8; 9]%Z
  /\ tabs_sendMessage three_tabs 8 (pause_message (JObj [("rewardId", JStr "RWD-1")]))
     = Rejected "Receiving end does not exist"
  /\ connected s1 = true.
Proof.
  pose proof (C7_delivery_failures_are_isolated
                (tabs_sendMessage three_tabs)
                [mkTab (Some 7%Z); mkTab (Some 8%Z); mkTab (Some 9%Z)]
                (JObj [("rewardId", JStr "RWD-1")]) opened) as (Hsent & _ & He & _).
  cbv zeta. split; [exact Hsent|]. split; [reflexivity|].
  unfold connected. change (mkBrowser _ _) with three_tabs in He.
  rewrite He. reflexivity.
Defined.

(** * C8: open resets the retry counter *)

(** C8. Whatever [reconnectAttempts] was, it is 0 after [onopen] (also when
    the browser's [open] event is fired through the transition system), and
    the next failure counts from there: it leaves [reconnectAttempts = 1]
    with one more reconnect scheduled. *)
Theorem C8_open_resets_attempts (s : State) (rs : ReadyState) :
  reconnectAttempts (onopen s) = 0%Z
  /\ reconnectAttempts (fire EvOpen s) = 0%Z
  /\ reconnectAttempts (fire (EvError rs) (fire EvOpen s)) = 1%Z
  /\ timers (fire (EvError rs) (fire EvOpen s)) = S (timers s).
Proof.
  split; [reflexivity|]. split; [reflexivity|].
  cbn [fire]. unfold onerror.
  destruct (onerror_with_spec MAX_RECONNECT_ATTEMPTS
              (set_readyState rs (onopen (set_readyState OPEN s))))
    as (_ & _ & _ & Hb).
  destruct (set_readyState_frame rs (onopen (set_readyState OPEN s)))
    as (Ha & Ht & _).
  rewrite Ha, Ht in Hb.
  destruct (set_readyState_frame OPEN s) as (_ & Ht0 & _).
  change (reconnectAttempts (onopen (set_readyState OPEN s))) with 0%Z in Hb.
  change (timers (onopen (set_readyState OPEN s)))
    with (timers (set_readyState OPEN s)) in Hb.
  rewrite Ht0 in Hb.
  change (0 <? MAX_RECONNECT_ATTEMPTS)%Z with true in Hb.
  exact Hb.
Qed.

(** * C9: a malformed event *)

(** C9 (amended). An event whose data [JSON.parse] rejects is dropped: the
    listener changes nothing -- the transport, [reconnectAttempts], the
    timers and the trace are as before, so nothing is delivered and nothing
    is torn down -- but it does not complete normally: the [SyntaxError]
    leaves the listener uncaught (for the [async] "pause" listener, as a
    rejected promise that nothing handles). *)
Theorem C9_malformed_event_throws (b : Browser) (s : State) :
  pause_listener b malformed s = (s, Throws SyntaxError)
  /\ connected_listener malformed s = (s, Throws SyntaxError)
  /\ fire (EvPause b malformed) s = s
  /\ fire (EvConnected malformed) s = s.
Proof. repeat split. Qed.

(** C9 as stated fails: on a malformed "pause" event the listener does not
    complete normally. *)
Lemma C9_counterexample :
  snd (pause_listener three_tabs malformed opened) <> Normal
  /\ snd (pause_listener three_tabs malformed opened) = Throws SyntaxError.
Proof. split; [discriminate|reflexivity]. Qed.

(** * C10: the retry counter stays within its bound *)

Lemma onChanged_attempts (changes : gmap string StorageChange) (areaName : string)
    (s : State) :
  reconnectAttempts (onChanged changes areaName s) = reconnectAttempts s.
Proof.
  unfold onChanged.
  destruct (String.eqb areaName "local"); [|reflexivity].
  destruct (changed changes "sseEnabled" || changed changes "configuredRewardId");
    [|reflexivity].
  now destruct (connectSSE_frame
                  (console LLog "Configuration changed, reconnecting SSE" [] s))
    as (-> & _).
Qed.

Lemma onMessage_attempts (message : Json) (s : State) :
  reconnectAttempts (fst (onMessage message s)) = reconnectAttempts s.
Proof.
  unfold onMessage.
  destruct (member message "type") as [type|]; [|reflexivity].
  destruct (strict_eq type (Some (JStr "CONNECT_SSE"))).
  { cbn [fst]. apply connectSSE_frame. }
  destruct (strict_eq type (Some (JStr "DISCONNECT_SSE"))).
  { cbn [fst]. apply disconnect_spec. }
  destruct (strict_eq type (Some (JStr "GET_SSE_STATUS"))); reflexivity.
Qed.

(** Every handler leaves the counter alone, resets it to 0, or -- only
    below the bound -- adds one. *)
Lemma fire_attempts (e : Event) (s : State) :
  reconnectAttempts (fire e s) = reconnectAttempts s
  \/ reconnectAttempts (fire e s) = 0%Z
  \/ ((reconnectAttempts s < MAX_RECONNECT_ATTEMPTS)%Z
      /\ reconnectAttempts (fire e s) = (reconnectAttempts s + 1)%Z).
Proof.
  destruct e as [message|st changes|changes areaName| |rs|event|b event| ];
    cbn [fire].
  - left. apply onMessage_attempts.
  - left. apply (onChanged_attempts changes "local" (set_local st s)).
  - left. apply onChanged_attempts.
  - right. left. reflexivity.
  - unfold onerror.
    destruct (onerror_with_spec MAX_RECONNECT_ATTEMPTS (set_readyState rs s))
      as (_ & _ & _ & Hb).
    destruct (set_readyState_frame rs s) as (Ha & _).
    rewrite Ha in Hb.
    destruct (Z.ltb_spec (reconnectAttempts s) MAX_RECONNECT_ATTEMPTS) as [Hlt|Hge].
    + right. right. split; [exact Hlt|]. apply Hb.
    + left. apply Hb.
  - left. unfold connected_listener. destruct (data event); reflexivity.
  - left. apply pause_listener_frame.
  - left. unfold timer_fires. destruct (timers s) as [|n]; [reflexivity|].
    now destruct (connectSSE_frame (set_timers n s)) as (-> & _).
Qed.

(** C10. In every state the script can reach from its start, under any
    initial store, [0 <= reconnectAttempts <= MAX_RECONNECT_ATTEMPTS = 10];
    and from such a state every event keeps the counter, resets it to 0, or
    increments it by one from a value below the bound. *)
Theorem C10_attempts_within_bound (st : gmap string Json) (s : State) :
  reachable st s ->
  (0 <= reconnectAttempts s <= MAX_RECONNECT_ATTEMPTS)%Z
  /\ MAX_RECONNECT_ATTEMPTS = 10%Z
  /\ forall e : Event,
       (0 <= reconnectAttempts (fire e s) <= MAX_RECONNECT_ATTEMPTS)%Z
       /\ (reconnectAttempts (fire e s) = reconnectAttempts s
           \/ reconnectAttempts (fire e s) = 0%Z
           \/ ((reconnectAttempts s < MAX_RECONNECT_ATTEMPTS)%Z
               /\ reconnectAttempts (fire e s) = (reconnectAttempts s + 1)%Z)).
Proof.
  intros Hreach.
  assert ((0 <= reconnectAttempts s <= MAX_RECONNECT_ATTEMPTS)%Z) as Hbound.
  { induction Hreach as [|e s Hreach IH Hen].
    - unfold defineBackground.
      destruct (connectSSE_frame
                  (console LLog "Background script started" []
                     (mkState None 0 0 st []))) as (-> & _).
      simpl. unfold MAX_RECONNECT_ATTEMPTS. lia.
    - destruct (fire_attempts e s) as [->| [->|[Hlt ->]]];
        unfold MAX_RECONNECT_ATTEMPTS in *; lia. }
  split; [exact Hbound|]. split; [reflexivity|].
  intros e. split; [|apply fire_attempts].
  destruct (fire_attempts e s) as [->| [->|[Hlt ->]]];
    unfold MAX_RECONNECT_ATTEMPTS in *; lia.
Qed.

Lemma C10_attempts_within_bound_witness :
  (0 <= reconnectAttempts reconnecting <= MAX_RECONNECT_ATTEMPTS)%Z
  /\ reconnectAttempts reconnecting = 1%Z.
Proof.
  split; [|reflexivity].
  apply (C10_attempts_within_bound (config true "RWD-1") reconnecting).
  apply (reachable_fire _ (EvError CLOSED) opened); [|vm_compute; reflexivity].
  apply (reachable_fire _ EvOpen (defineBackground (config true "RWD-1")));
    [|vm_compute; reflexivity].
  apply reachable_start.
Defined.

(** * Further properties of the background script *)

Lemma onerror_with_closes (max : Z) (s : State) :
  closes (onerror_with max s) = (closes s + holds_transport s)%nat.
Proof.
  unfold onerror_with, schedule_reconnect, drop_stream, closed_by_server,
    holds_transport.
  destruct s as [[[[]]|] a t l tr]; simpl; destruct (a <? max)%Z; count_trace.
Qed.

Lemma pause_listener_counts (b : Browser) (event : MessageEvent) (s : State) :
  local (fst (pause_listener b event s)) = local s
  /\ constructed (fst (pause_listener b event s)) = constructed s
  /\ closes (fst (pause_listener b event s)) = closes s.
Proof.
  unfold pause_listener.
  destruct (data event) as [|d]; [repeat split|].
  destruct (member d "rewardId") as [rewardId|]; cbv zeta.
  - destruct (negb _); cbn [fst].
    + split; [reflexivity|]. split; count_trace.
    + destruct (sendPauseToAMQ_frame b d
                  (console LLog "Reward ID matches! Sending pause command" []
                     (console LLog "Received pause event:" [d] s)))
        as (_ & _ & _ & -> & -> & ->).
      split; [reflexivity|]. split; count_trace.
  - cbn [fst]. split; [reflexivity|]. split; count_trace.
Qed.

(** What one call of [connectSSE] does to the connector, in both cases. *)
Lemma connectSSE_outcome (s : State) :
  reconnectAttempts (connectSSE s) = reconnectAttempts s
  /\ timers (connectSSE s) = timers s
  /\ (if gate (local s)
      then eventSource (connectSSE s) = Some (mkEventSource CONNECTING)
           /\ constructed (connectSSE s) = S (constructed s)
           /\ closes (connectSSE s) = (closes s + holds_transport s)%nat
      else eventSource (connectSSE s) = eventSource s
           /\ constructed (connectSSE s) = constructed s
           /\ closes (connectSSE s) = closes s).
Proof.
  destruct (connectSSE_frame s) as (Ha & Ht & _).
  split; [exact Ha|]. split; [exact Ht|].
  destruct (gate (local s)) eqn:Hg.
  - apply (connectSSE_connects s Hg).
  - destruct (connectSSE_refused s Hg) as (He & _).
    destruct (connectSSE_refused_counts s Hg) as (Hc & Hx). auto.
Qed.

(** The books of one call: constructions, closings and what is held. *)
Lemma connectSSE_balance (s : State) :
  (constructed (connectSSE s) + closes s + holds_transport s
   = constructed s + closes (connectSSE s) + holds_transport (connectSSE s))%nat.
Proof.
  destruct (connectSSE_outcome s) as (_ & _ & H).
  unfold holds_transport at 2.
  destruct (gate (local s)); destruct H as (-> & -> & ->);
    unfold holds_transport; lia.
Qed.

Lemma console_counts (l : Level) (text : string) (args : list Json) (s : State) :
  constructed (console l text args s) = constructed s
  /\ closes (console l text args s) = closes s
  /\ holds_transport (console l text args s) = holds_transport s.
Proof. split; [count_trace|]. split; [count_trace|reflexivity]. Qed.

Lemma fire_balance (e : Event) (s : State) :
  (constructed (fire e s) + closes s + holds_transport s
   = constructed s + closes (fire e s) + holds_transport (fire e s))%nat.
Proof.
  destruct e as [message|st changes|changes areaName| |rs|event|b event| ];
    cbn [fire].
  - unfold onMessage.
    destruct (member message "type") as [type|]; [|reflexivity].
    destruct (strict_eq type (Some (JStr "CONNECT_SSE")));
      [cbn [fst]; apply connectSSE_balance|].
    destruct (strict_eq type (Some (JStr "DISCONNECT_SSE"))).
    + cbn [fst]. destruct (disconnect_spec s) as (He & _ & _ & _ & -> & ->).
      unfold holds_transport at 2. rewrite He. unfold holds_transport. lia.
    + destruct (strict_eq type (Some (JStr "GET_SSE_STATUS"))); reflexivity.
  - unfold onChanged. cbn [String.eqb Ascii.eqb Bool.eqb].
    change (String.eqb "local" "local") with true. cbv iota.
    destruct (changed changes "sseEnabled" || changed changes "configuredRewardId");
      [|reflexivity].
    pose proof (connectSSE_balance
                  (console LLog "Configuration changed, reconnecting SSE" []
                     (set_local st s))) as H.
    destruct (console_counts LLog "Configuration changed, reconnecting SSE" []
                (set_local st s)) as (Hc & Hx & Hh).
    rewrite Hc, Hx, Hh in H. exact H.
  - unfold onChanged. destruct (String.eqb areaName "local"); [|reflexivity].
    destruct (changed changes "sseEnabled" || changed changes "configuredRewardId");
      [|reflexivity].
    pose proof (connectSSE_balance
                  (console LLog "Configuration changed, reconnecting SSE" [] s))
      as H.
    destruct (console_counts LLog "Configuration changed, reconnecting SSE" [] s)
      as (Hc & Hx & Hh).
    rewrite Hc, Hx, Hh in H. exact H.
  - unfold set_readyState, holds_transport.
    destruct s as [[es|] a t l tr]; simpl; count_trace.
  - unfold onerror, onerror_with, schedule_reconnect, drop_stream,
      closed_by_server, set_readyState, holds_transport.
    destruct s as [[es|] a t l tr]; destruct rs; simpl;
      destruct (a <? MAX_RECONNECT_ATTEMPTS)%Z; count_trace.
  - unfold connected_listener. destruct (data event) as [|d]; [reflexivity|].
    cbn [fst].
    destruct (console_counts LLog "Connected to event stream:" [d] s)
      as (-> & -> & ->).
    reflexivity.
  - destruct (pause_listener_frame b event s) as (He & _).
    destruct (pause_listener_counts b event s) as (_ & -> & ->).
    unfold holds_transport. rewrite He. reflexivity.
  - unfold timer_fires. destruct (timers s) as [|n]; [reflexivity|].
    apply (connectSSE_balance (set_timers n s)).
Qed.

(** X1. In every state the script can reach, the [EventSource]s it has
    constructed are the ones it has closed plus the one it holds, if any:
    no transport is ever left open behind, and at most one is open. *)
Theorem live_transport_is_the_one_held (st : gmap string Json) (s : State) :
  reachable st s ->
  constructed s = (closes s + holds_transport s)%nat
  /\ (constructed s - closes s <= 1)%nat.
Proof.
  intros Hreach.
  assert (constructed s = (closes s + holds_transport s)%nat) as Hbal.
  { induction Hreach as [|e s Hreach IH _].
    - unfold defineBackground.
      pose proof (connectSSE_balance
                    (console LLog "Background script started" []
                       (mkState None 0 0 st []))) as H.
      change (constructed (console LLog "Background script started" []
                             (mkState None 0 0 st []))) with 0%nat in H.
      change (closes (console LLog "Background script started" []
                        (mkState None 0 0 st []))) with 0%nat in H.
      change (holds_transport (console LLog "Background script started" []
                                 (mkState None 0 0 st []))) with 0%nat in H.
      lia.
    - pose proof (fire_balance e s) as H. lia. }
  split; [exact Hbal|].
  rewrite Hbal. unfold holds_transport. destruct (eventSource s); lia.
Qed.

Lemma live_transport_is_the_one_held_witness :
  constructed reconnecting = 1%nat /\ closes reconnecting = 1%nat
  /\ (constructed reconnecting - closes reconnecting <= 1)%nat.
Proof.
  split; [reflexivity|]. split; [reflexivity|].
  apply (live_transport_is_the_one_held (config true "RWD-1") reconnecting).
  apply (reachable_fire _ (EvError CLOSED) opened); [|vm_compute; reflexivity].
  apply (reachable_fire _ EvOpen (defineBackground (config true "RWD-1")));
    [|vm_compute; reflexivity].
  apply reachable_start.
Defined.

Lemma connectSSE_connected (s : State) :
  connected (connectSSE s) = true -> connected s = true.
Proof.
  destruct (connectSSE_outcome s) as (_ & _ & H).
  unfold connected.
  destruct (gate (local s)); destruct H as (-> & _); [discriminate|auto].
Qed.

Lemma fire_connected (e : Event) (s : State) :
  connected (fire e s) = true ->
  (connected s = true /\ reconnectAttempts (fire e s) = reconnectAttempts s)
  \/ reconnectAttempts (fire e s) = 0%Z.
Proof.
  destruct e as [message|st changes|changes areaName| |rs|event|b event| ];
    cbn [fire]; intros Hc.
  - left. split; [|apply onMessage_attempts].
    revert Hc. unfold onMessage.
    destruct (member message "type") as [type|]; [|auto].
    destruct (strict_eq type (Some (JStr "CONNECT_SSE")));
      [cbn [fst]; apply connectSSE_connected|].
    destruct (strict_eq type (Some (JStr "DISCONNECT_SSE"))).
    + cbn [fst]. unfold connected.
      destruct (disconnect_spec s) as (-> & _). discriminate.
    + destruct (strict_eq type (Some (JStr "GET_SSE_STATUS"))); auto.
  - left. split; [|apply (onChanged_attempts changes "local" (set_local st s))].
    revert Hc. unfold onChanged. change (String.eqb "local" "local") with true.
    cbv iota.
    destruct (changed changes "sseEnabled" || changed changes "configuredRewardId");
      [|auto].
    intros Hc. apply connectSSE_connected in Hc. exact Hc.
  - left. split; [|apply onChanged_attempts].
    revert Hc. unfold onChanged. destruct (String.eqb areaName "local"); [|auto].
    destruct (changed changes "sseEnabled" || changed changes "configuredRewardId");
      [|auto].
    intros Hc. apply connectSSE_connected in Hc. exact Hc.
  - right. reflexivity.
  - exfalso. revert Hc. unfold onerror, connected.
    destruct (onerror_with_spec MAX_RECONNECT_ATTEMPTS (set_readyState rs s))
      as (-> & _).
    discriminate.
  - left. revert Hc. unfold connected_listener.
    destruct (data event); cbn [fst]; auto.
  - left. destruct (pause_listener_frame b event s) as (He & Ha & _).
    split; [|exact Ha]. revert Hc. unfold connected. rewrite He. auto.
  - left. revert Hc. unfold timer_fires.
    destruct (timers s) as [|n]; [auto|].
    intros Hc. split.
    + apply connectSSE_connected in Hc. exact Hc.
    + apply (connectSSE_frame (set_timers n s)).
Qed.

(** X2. In every state the script can reach, a status of [connected: true]
    comes with [reconnectAttempts: 0]: the counter is non-zero only while
    no stream is open. *)
Theorem connected_status_has_no_attempts (st : gmap string Json) (s : State) :
  reachable st s ->
  status_response s
    = JObj [("connected", JBool true);
            ("reconnectAttempts", JNum (reconnectAttempts s))] ->
  reconnectAttempts s = 0%Z.
Proof.
  intros Hreach Hstatus.
  assert (connected s = true) as Hc.
  { unfold status_response in Hstatus. injection Hstatus as H. exact H. }
  clear Hstatus. induction Hreach as [|e s Hreach IH _].
  - unfold defineBackground.
    now destruct (connectSSE_frame
                    (console LLog "Background script started" []
                       (mkState None 0 0 st []))) as (-> & _).
  - destruct (fire_connected e s Hc) as [[Hc' ->]|H]; auto.
Qed.

Lemma connected_status_has_no_attempts_witness :
  connected opened = true /\ reconnectAttempts opened = 0%Z.
Proof.
  split; [reflexivity|].
  apply (connected_status_has_no_attempts (config true "RWD-1") opened).
  - apply (reachable_fire _ EvOpen (defineBackground (config true "RWD-1")));
      [|vm_compute; reflexivity].
    apply reachable_start.
  - vm_compute. reflexivity.
Defined.

(** X3. A Start -- the [CONNECT_SSE] command, always answered with
    [success: true] -- constructs an [EventSource] exactly when the stored
    configuration passes all three guards; it is then exactly one, in
    [CONNECTING], constructed after the transport held before (if any) was
    closed.  The retry counter and the pending timers are never touched.
    Startup constructs one under the same condition and none otherwise. *)
Theorem start_connects_exactly_when_gate_passes (s : State) :
  let s' := fst (onMessage CONNECT_SSE s) in
  snd (onMessage CONNECT_SSE s) = Responded success_response
  /\ (constructed s' = S (constructed s) <-> gate (local s) = true)
  /\ (constructed s' = constructed s <-> gate (local s) = false)
  /\ (gate (local s) = true ->
        eventSource s' = Some (mkEventSource CONNECTING)
        /\ closes s' = (closes s + holds_transport s)%nat)
  /\ reconnectAttempts s' = reconnectAttempts s
  /\ timers s' = timers s
  /\ constructed (defineBackground (local s))
     = (if gate (local s) then 1 else 0)%nat.
Proof.
  intros s'. subst s'.
  change (fst (onMessage CONNECT_SSE s)) with (connectSSE s).
  destruct (connectSSE_outcome s) as (Ha & Ht & H).
  split; [reflexivity|].
  assert (constructed (defineBackground (local s))
          = (if gate (local s) then 1 else 0)%nat) as Hstart.
  { unfold defineBackground.
    destruct (connectSSE_outcome
                (console LLog "Background script started" []
                   (mkState None 0 0 (local s) []))) as (_ & _ & H0).
    change (local (console LLog "Background script started" []
                     (mkState None 0 0 (local s) []))) with (local s) in H0.
    destruct (gate (local s)); destruct H0 as (_ & -> & _); reflexivity. }
  destruct (gate (local s)); destruct H as (He & Hc & Hx).
  - split; [split; auto|]. split; [split; [lia|discriminate]|].
    split; [auto|]. auto.
  - split; [split; [lia|discriminate]|]. split; [split; auto|].
    split; [discriminate|]. auto.
Qed.

Lemma sendPauseToAMQ_sent (b : Browser) (d : Json) (s : State) :
  sent_to (trace (sendPauseToAMQ b d s)) =
    sent_to (trace s) ++
      match tabs_query b with
      | Resolved tabs => targets tabs
      | Rejected _ => []
      end.
Proof.
  destruct (tabs_query b) as [tabs|reason] eqn:Hq.
  - rewrite (sendPauseToAMQ_trace b d tabs s Hq), sent_to_app. f_equal.
    destruct tabs as [|tab tabs]; [reflexivity|].
    cbn [sent_to]. apply sent_to_deliveries.
  - unfold sendPauseToAMQ. rewrite Hq. cbn [trace console emit].
    rewrite !sent_to_app. cbn [sent_to]. now rewrite !app_nil_r.
Qed.

Lemma pause_listener_sent (b : Browser) (f r : string) (s : State) :
  local s !! "configuredRewardId" = Some (JStr f) ->
  sent_to (trace (fst (pause_listener b (pause_event r) s))) =
    sent_to (trace s) ++
      (if String.eqb f r
       then match tabs_query b with
            | Resolved tabs => targets tabs
            | Rejected _ => []
            end
       else []).
Proof.
  intros Hcfg.
  destruct (pause_listener_filter b [("rewardId", JStr r)] f s Hcfg) as [Hyes Hno].
  destruct (String.eqb_spec f r) as [->|Hne].
  - unfold pause_event. rewrite Hyes by reflexivity.
    rewrite sendPauseToAMQ_sent. f_equal.
    cbn [trace console emit]. rewrite !sent_to_app. cbn [sent_to].
    now rewrite !app_nil_r.
  - unfold pause_event. rewrite Hno; [now rewrite app_nil_r|].
    cbn. intros H. injection H as ->. contradiction.
Qed.

(** X4. A storage change that lists neither [sseEnabled] nor
    [configuredRewardId] -- signing in or out writes [twitchSession] only --
    does nothing to the connector, whatever the store then holds: an open
    stream stays open with the session gone, and a pause event carrying the
    stored reward id is still sent to every target tab. *)
Theorem session_change_keeps_stream
    (s : State) (st : gmap string Json) (changes : gmap string StorageChange)
    (b : Browser) (f : string) :
  connected s = true ->
  changed changes "sseEnabled" = false ->
  changed changes "configuredRewardId" = false ->
  st !! "configuredRewardId" = Some (JStr f) ->
  let s1 := fire (EvStorage st changes) s in
  s1 = set_local st s
  /\ connected s1 = true
  /\ sent_to (trace (fire (EvPause b (pause_event f)) s1)) =
       sent_to (trace s) ++
         match tabs_query b with
         | Resolved tabs => targets tabs
         | Rejected _ => []
         end.
Proof.
  intros Hc H1 H2 Hcfg s1.
  assert (s1 = set_local st s) as Hs1.
  { subst s1. cbn [fire]. unfold onChanged.
    change (String.eqb "local" "local") with true. cbv iota.
    rewrite H1, H2. reflexivity. }
  split; [exact Hs1|]. split; [rewrite Hs1; exact Hc|].
  cbn [fire]. rewrite Hs1.
  rewrite (pause_listener_sent b f f (set_local st s) Hcfg).
  rewrite String.eqb_refl. reflexivity.
Qed.

Lemma session_change_keeps_stream_witness :
  let signed_out_store := delete "twitchSession" (config true "RWD-1") in
  let s1 := fire (EvStorage signed_out_store
                    (change_of "twitchSession" (config true "RWD-1") signed_out_store))
                 opened in
  credential_present (local s1) = false
  /\ connected s1 = true
  /\ sent_to (trace (fire (EvPause three_tabs (pause_event "RWD-1")) s1))
     = [7; 8; 9]%Z.
Proof.
  intros signed_out_store s1.
  destruct (session_change_keeps_stream opened signed_out_store
              (change_of "twitchSession" (config true "RWD-1") signed_out_store)
              three_tabs "RWD-1")
    as (Hs1 & Hc & Hsent).
  - vm_compute. reflexivity.
  - vm_compute. reflexivity.
  - vm_compute. reflexivity.
  - vm_compute. reflexivity.
  - split; [vm_compute; reflexivity|]. split; [exact Hc|exact Hsent].
Defined.

(** X5. Once the script has given up ([reconnectAttempts] at the bound, no
    transport, nothing pending), a Start under a passing configuration
    connects again but does not give the retries back: the counter stays at
    the bound, so if that connection fails before it opens, the script gives
    up at once without scheduling a reconnect.  Only the stream opening
    resets the counter. *)
Theorem start_does_not_restore_budget (s : State) (rs : ReadyState) :
  reconnectAttempts s = MAX_RECONNECT_ATTEMPTS ->
  at_rest s ->
  gate (local s) = true ->
  let s1 := fire (EvMessage CONNECT_SSE) s in
  let s2 := fire (EvError rs) s1 in
  eventSource s1 = Some (mkEventSource CONNECTING)
  /\ reconnectAttempts s1 = MAX_RECONNECT_ATTEMPTS
  /\ at_rest s2
  /\ reconnectAttempts s2 = MAX_RECONNECT_ATTEMPTS
  /\ constructed s2 = S (constructed s)
  /\ reconnectAttempts (fire EvOpen s1) = 0%Z.
Proof.
  intros Ha [He Ht] Hg s1 s2.
  assert (s1 = connectSSE s) as Hs1 by reflexivity.
  destruct (connectSSE_outcome s) as (Ha1 & Ht1 & H).
  rewrite Hg in H. destruct H as (He1 & Hc1 & _).
  rewrite <- Hs1 in Ha1, Ht1, He1, Hc1.
  split; [exact He1|]. split; [congruence|].
  subst s2. cbn [fire]. unfold onerror.
  destruct (onerror_with_spec MAX_RECONNECT_ATTEMPTS (set_readyState rs s1))
    as (He2 & _ & Hc2 & Hb).
  destruct (set_readyState_frame rs s1) as (Ha' & Ht' & _ & Hc').
  rewrite Ha', Ht', Ha1, Ht1, Ha, Ht in Hb.
  rewrite Z.ltb_irrefl in Hb. destruct Hb as [Ha2 Ht2].
  split; [split; assumption|]. split; [exact Ha2|].
  split; [congruence|reflexivity].
Qed.

Lemma start_does_not_restore_budget_witness :
  reconnectAttempts gave_up = 10%Z
  /\ at_rest (fire (EvError CLOSED) (fire (EvMessage CONNECT_SSE) gave_up))
  /\ constructed (fire (EvError CLOSED) (fire (EvMessage CONNECT_SSE) gave_up))
     = 12%nat.
Proof.
  destruct (start_does_not_restore_budget gave_up CLOSED)
    as (_ & _ & Hrest & _ & Hc & _).
  - vm_compute. reflexivity.
  - split; vm_compute; reflexivity.
  - vm_compute. reflexivity.
  - split; [vm_compute; reflexivity|]. split; [exact Hrest|].
    rewrite Hc. vm_compute. reflexivity.
Defined.

(** X6. Stop is idempotent: a second [DISCONNECT_SSE] changes nothing, not
    even the console, and so does a first one when no transport is held;
    a Stop closes at most the one transport held. *)
Theorem stop_is_idempotent (s : State) :
  let stop := fire (EvMessage DISCONNECT_SSE) in
  stop (stop s) = stop s
  /\ (eventSource s = None -> stop s = s)
  /\ closes (stop s) = (closes s + holds_transport s)%nat
  /\ snd (onMessage DISCONNECT_SSE s) = Responded success_response.
Proof.
  cbv zeta. change (fire (EvMessage DISCONNECT_SSE)) with disconnect.
  split; [|split; [|split; [|reflexivity]]].
  - unfold disconnect. destruct s as [[es|] a t l tr]; reflexivity.
  - intros He. unfold disconnect. rewrite He. reflexivity.
  - apply disconnect_spec.
Qed.

(** X7. Start is not idempotent: under a passing configuration, every Start
    closes the transport held and constructs a new one, so a second Start
    throws away the connection the first one made, and a Start on an open
    stream leaves the script not connected until the new stream opens. *)
Theorem start_replaces_the_transport (s : State) :
  gate (local s) = true ->
  let start := fire (EvMessage CONNECT_SSE) in
  constructed (start (start s)) = S (S (constructed s))
  /\ closes (start (start s)) = S (closes s + holds_transport s)
  /\ eventSource (start (start s)) = Some (mkEventSource CONNECTING)
  /\ connected (start s) = false
  /\ reconnectAttempts (start (start s)) = reconnectAttempts s.
Proof.
  intros Hg. cbv zeta. change (fire (EvMessage CONNECT_SSE)) with connectSSE.
  destruct (connectSSE_outcome s) as (Ha & _ & H).
  destruct (connectSSE_frame s) as (_ & _ & Hl).
  rewrite Hg in H. destruct H as (He & Hc & Hx).
  destruct (connectSSE_outcome (connectSSE s)) as (Ha' & _ & H').
  rewrite Hl, Hg in H'. destruct H' as (He' & Hc' & Hx').
  unfold holds_transport at 1 in Hx'. rewrite He in Hx'.
  split; [lia|]. split; [lia|]. split; [exact He'|].
  split; [unfold connected; rewrite He; reflexivity|congruence].
Qed.

Lemma start_replaces_the_transport_witness :
  connected opened = true
  /\ connected (fire (EvMessage CONNECT_SSE) opened) = false
  /\ constructed (fire (EvMessage CONNECT_SSE) (fire (EvMessage CONNECT_SSE) opened))
     = 3%nat.
Proof.
  destruct (start_replaces_the_transport opened) as (Hc & _ & _ & Hconn & _).
  - vm_compute. reflexivity.
  - split; [reflexivity|]. split; [exact Hconn|]. rewrite Hc. reflexivity.
Defined.

(** X8. No handler cancels a pending reconnect: the number of pending
    timers goes down only by a timer firing (by one), goes up only by
    [onerror] below the bound (by one), and every other event leaves it
    as it is. *)
Theorem pending_reconnects_are_never_cancelled (e : Event) (s : State) :
  timers (fire e s) =
    match e with
    | EvTimer => pred (timers s)
    | EvError _ =>
        if (reconnectAttempts s <? MAX_RECONNECT_ATTEMPTS)%Z
        then S (timers s) else timers s
    | _ => timers s
    end.
Proof.
  destruct e as [message|st changes|changes areaName| |rs|event|b event| ];
    cbn [fire].
  - unfold onMessage.
    destruct (member message "type") as [type|]; [|reflexivity].
    destruct (strict_eq type (Some (JStr "CONNECT_SSE")));
      [cbn [fst]; apply connectSSE_frame|].
    destruct (strict_eq type (Some (JStr "DISCONNECT_SSE")));
      [cbn [fst]; apply disconnect_spec|].
    destruct (strict_eq type (Some (JStr "GET_SSE_STATUS"))); reflexivity.
  - unfold onChanged. change (String.eqb "local" "local") with true. cbv iota.
    destruct (changed changes "sseEnabled" || changed changes "configuredRewardId");
      [|reflexivity].
    apply (connectSSE_frame
             (console LLog "Configuration changed, reconnecting SSE" []
                (set_local st s))).
  - unfold onChanged. destruct (String.eqb areaName "local"); [|reflexivity].
    destruct (changed changes "sseEnabled" || changed changes "configuredRewardId");
      [|reflexivity].
    apply (connectSSE_frame
             (console LLog "Configuration changed, reconnecting SSE" [] s)).
  - unfold set_readyState. destruct (eventSource s); reflexivity.
  - unfold onerror.
    destruct (onerror_with_spec MAX_RECONNECT_ATTEMPTS (set_readyState rs s))
      as (_ & _ & _ & Hb).
    destruct (set_readyState_frame rs s) as (Ha & Ht & _).
    rewrite Ha, Ht in Hb.
    destruct (reconnectAttempts s <? MAX_RECONNECT_ATTEMPTS)%Z; apply Hb.
  - unfold connected_listener. destruct (data event); reflexivity.
  - apply pause_listener_frame.
  - unfold timer_fires. destruct (timers s) as [|n] eqn:Ht; [exact Ht|].
    apply (connectSSE_frame (set_timers n s)).
Qed.

(** X9. The script never writes the store: after any event the store is
    what it was, or what the storage change that was notified made it. *)
Theorem store_is_never_written (e : Event) (s : State) :
  local (fire e s) =
    match e with
    | EvStorage st _ => st
    | _ => local s
    end.
Proof.
  destruct e as [message|st changes|changes areaName| |rs|event|b event| ];
    cbn [fire].
  - unfold onMessage.
    destruct (member message "type") as [type|]; [|reflexivity].
    destruct (strict_eq type (Some (JStr "CONNECT_SSE")));
      [cbn [fst]; apply connectSSE_frame|].
    destruct (strict_eq type (Some (JStr "DISCONNECT_SSE")));
      [cbn [fst]; apply disconnect_spec|].
    destruct (strict_eq type (Some (JStr "GET_SSE_STATUS"))); reflexivity.
  - unfold onChanged. change (String.eqb "local" "local") with true. cbv iota.
    destruct (changed changes "sseEnabled" || changed changes "configuredRewardId");
      [|reflexivity].
    apply (connectSSE_frame
             (console LLog "Configuration changed, reconnecting SSE" []
                (set_local st s))).
  - unfold onChanged. destruct (String.eqb areaName "local"); [|reflexivity].
    destruct (changed changes "sseEnabled" || changed changes "configuredRewardId");
      [|reflexivity].
    apply (connectSSE_frame
             (console LLog "Configuration changed, reconnecting SSE" [] s)).
  - unfold set_readyState. destruct (eventSource s); reflexivity.
  - unfold onerror.
    destruct (onerror_with_spec MAX_RECONNECT_ATTEMPTS (set_readyState rs s))
      as (_ & -> & _).
    apply set_readyState_frame.
  - unfold connected_listener. destruct (data event); reflexivity.
  - apply pause_listener_counts.
  - unfold timer_fires. destruct (timers s) as [|n]; [reflexivity|].
    apply (connectSSE_frame (set_timers n s)).
Qed.

(** * Further properties of delivery and of the filter *)

Ltac count_queries :=
  unfold queries; simpl;
  rewrite ?List.filter_app, ?length_app; simpl; lia.

Lemma targets_spec (tabs : list Tab) (id : Z) :
  In id (targets tabs) <-> id <> 0%Z /\ In (mkTab (Some id)) tabs.
Proof.
  induction tabs as [|[[id'|]] tabs IH]; cbn [targets tab_id In].
  - tauto.
  - cbn [truthy]. destruct (Z.eqb_spec id' 0) as [->|Hne]; cbn [negb In].
    + rewrite IH. split; [tauto|]. intros [Hid [H|H]]; [|tauto].
      injection H as <-. contradiction.
    + rewrite IH. split.
      * intros [->|[Hid Hin]]; [auto|tauto].
      * intros [Hid [H|H]]; [injection H as ->; auto|tauto].
  - rewrite IH. split; [tauto|]. intros [Hid [H|H]]; [discriminate|tauto].
Qed.

Lemma deliveries_no_query (b : Browser) (d : Json) (ids : list Z) :
  List.filter is_TabsQuery (deliveries b d ids) = [].
Proof.
  induction ids as [|id ids IH]; [reflexivity|].
  change (deliveries b d (id :: ids))
    with (SendMessage id (pause_message d) :: outcome_line b d id
            :: deliveries b d ids).
  cbn [List.filter is_TabsQuery]. unfold outcome_line at 1.
  destruct (tabs_sendMessage b id (pause_message d)); exact IH.
Qed.

Lemma sendPauseToAMQ_queries (b : Browser) (d : Json) (s : State) :
  queries (sendPauseToAMQ b d s) = S (queries s).
Proof.
  destruct (tabs_query b) as [tabs|reason] eqn:Hq.
  - unfold queries. rewrite (sendPauseToAMQ_trace b d tabs s Hq).
    rewrite List.filter_app, length_app. cbn [List.filter is_TabsQuery].
    destruct tabs as [|tab tabs]; [simpl; lia|].
    rewrite deliveries_no_query. simpl. lia.
  - unfold sendPauseToAMQ. rewrite Hq. count_queries.
Qed.

(** X10. A delivery queries the tabs once and sends to exactly the tabs
    that have a non-zero id, each once and in the order of the answer: a
    tab without id, or with id 0, is passed over.  If the query itself is
    rejected nothing is sent and the connection is left alone. *)
Theorem delivery_reaches_exactly_the_tabs_with_an_id
    (b : Browser) (d : Json) (s : State) :
  let s1 := sendPauseToAMQ b d s in
  queries s1 = S (queries s)
  /\ match tabs_query b with
     | Resolved tabs =>
         sent_to (trace s1) = sent_to (trace s) ++ targets tabs
         /\ (forall id : Z,
               In id (targets tabs) <-> id <> 0%Z /\ In (mkTab (Some id)) tabs)
     | Rejected _ =>
         sent_to (trace s1) = sent_to (trace s)
         /\ eventSource s1 = eventSource s
         /\ timers s1 = timers s
     end.
Proof.
  intros s1. split; [apply sendPauseToAMQ_queries|].
  pose proof (sendPauseToAMQ_sent b d s) as Hsent. fold s1 in Hsent.
  destruct (sendPauseToAMQ_frame b d s) as (He & _ & Ht & _).
  destruct (tabs_query b) as [tabs|reason].
  - split; [exact Hsent|]. intros id. apply targets_spec.
  - rewrite app_nil_r in Hsent. auto.
Qed.

(** X11. With a string stored as reward id, a pause event starts a
    delivery exactly when its payload is an object whose [rewardId] is that
    very string; any other payload -- another id, a [rewardId] that is not
    a string, no [rewardId], a payload that is a number, a string or an
    array -- starts none.  The listener ends normally except on the payload
    [null], where reading [rewardId] throws and nothing is delivered. *)
Theorem pause_is_delivered_iff_reward_matches
    (b : Browser) (d : Json) (f : string) (s : State) :
  local s !! "configuredRewardId" = Some (JStr f) ->
  let r := pause_listener b (mkMessageEvent (Parsed d)) s in
  (queries (fst r) = S (queries s) <->
     exists fields, d = JObj fields /\ assoc "rewardId" fields = Some (JStr f))
  /\ (queries (fst r) = queries s \/ queries (fst r) = S (queries s))
  /\ (snd r = Throws TypeError <-> d = JNull)
  /\ (d <> JNull -> snd r = Normal).
Proof.
  intros Hcfg r. subst r. unfold pause_listener. cbn [data]. cbv zeta.
  rewrite storage_get_lookup by set_solver.
  change (local (console LLog "Received pause event:" [d] s)) with (local s).
  rewrite Hcfg.
  assert (forall s0 : State,
            queries (console LLog "Received pause event:" [d] s0) = queries s0)
    as Hq1 by (intros; count_queries).
  assert (forall (t : string) (s0 : State),
            queries (console LLog t [] s0) = queries s0)
    as Hq2 by (intros; count_queries).
  destruct d as [|x|n|x|items|fields]; cbn [member get_prop];
    try (change (strict_eq (Some (JStr f)) None) with false; cbn [negb fst snd];
         rewrite Hq2, Hq1;
         split; [split; [lia|intros (fields & H & _); discriminate]|];
         split; [auto|]; split; [split; discriminate|auto]).
  - cbn [fst snd]. rewrite Hq1.
    split; [split; [lia|intros (fields & H & _); discriminate]|].
    split; [auto|]. split; [split; auto|]. congruence.
  - destruct (strict_eq (Some (JStr f)) (assoc "rewardId" fields)) eqn:E;
      cbn [negb fst snd].
    + apply strict_eq_string in E. rewrite sendPauseToAMQ_queries, Hq2, Hq1.
      split; [split; [eauto|auto]|]. split; [auto|].
      split; [split; discriminate|auto].
    + rewrite Hq2, Hq1.
      split; [split; [lia|]|].
      { intros (fields' & H & Hassoc). injection H as <-.
        apply strict_eq_string in Hassoc. congruence. }
      split; [auto|]. split; [split; discriminate|auto].
Qed.

Lemma pause_is_delivered_iff_reward_matches_witness :
  queries (fire (EvPause three_tabs (pause_event "RWD-1")) opened)
    = S (queries opened)
  /\ queries (fire (EvPause three_tabs (pause_event "RWD-2")) opened)
    = queries opened.
Proof.
  assert (local opened !! "configuredRewardId" = Some (JStr "RWD-1")) as Hcfg
    by (vm_compute; reflexivity).
  destruct (pause_is_delivered_iff_reward_matches three_tabs
              (JObj [("rewardId", JStr "RWD-1")]) "RWD-1" opened Hcfg)
    as ([_ Hyes] & _).
  split; [|vm_compute; reflexivity].
  apply Hyes. eexists. split; reflexivity.
Defined.

(** X12. Within the budget the stream recovers.  From a state with a
    transport in place, [reconnectAttempts = 0], no reconnect pending and a
    configuration that passes the gate, and with no other event in between:
    after [k] consecutive failures, [0 < k <= max], the counter stands at
    [k] with the [k]-th reconnect pending; when that reconnect fires and
    the stream opens, the script is connected with the counter back at 0,
    nothing pending, and [k] further [EventSource]s constructed in all. *)
Theorem stream_recovers_within_budget
    (max : Z) (rss : list ReadyState) (s : State) :
  gate (local s) = true ->
  is_Some (eventSource s) -> timers s = 0%nat -> reconnectAttempts s = 0%Z ->
  rss <> [] -> (Z.of_nat (length rss) <= max)%Z ->
  let s1 := consecutive_failures max rss s in
  let s2 := s1 |> timer_fires |> set_readyState OPEN |> onopen in
  reconnectAttempts s1 = Z.of_nat (length rss)
  /\ timers s1 = 1%nat
  /\ connected s2 = true
  /\ reconnectAttempts s2 = 0%Z
  /\ timers s2 = 0%nat
  /\ constructed s2 = (constructed s + length rss)%nat.
Proof.
  intros Hg Hes Ht Ha Hne Hle s1 s2.
  destruct (consecutive_failures_below max rss s Hg) as (He1 & Ht1 & Ha1 & Hl1 & Hc1);
    [left; split; assumption|exact Hne|lia|].
  fold s1 in He1, Ht1, Ha1, Hl1, Hc1.
  split; [lia|]. split; [exact Ht1|].
  assert (gate (local (set_timers 0 s1)) = true) as Hg1
    by (cbn [local set_timers]; rewrite Hl1; exact Hg).
  destruct (connectSSE_outcome (set_timers 0 s1)) as (_ & Ht2 & H).
  rewrite Hg1 in H. destruct H as (He2 & Hc2 & _).
  assert (timer_fires s1 = connectSSE (set_timers 0 s1)) as Htf
    by (unfold timer_fires; rewrite Ht1; reflexivity).
  subst s2. rewrite Htf. unfold set_readyState. rewrite He2.
  split; [reflexivity|]. split; [reflexivity|].
  split; [exact Ht2|].
  change (constructed (onopen (set_eventSource (Some (mkEventSource OPEN))
                                 (connectSSE (set_timers 0 s1)))))
    with (length (List.filter is_NewEventSource
                    (trace (connectSSE (set_timers 0 s1))
                       ++ [Console LLog "SSE connection established" []]))).
  rewrite List.filter_app, length_app. cbn [List.filter is_NewEventSource length].
  fold (constructed (connectSSE (set_timers 0 s1))).
  rewrite Hc2. change (constructed (set_timers 0 s1)) with (constructed s1).
  rewrite Hc1, Ht.
  assert (length rss <> 0%nat) by (destruct rss; [congruence|discriminate]).
  lia.
Qed.

Lemma stream_recovers_within_budget_witness :
  let s1 := consecutive_failures 10 [CLOSED; CONNECTING; CLOSED] opened in
  reconnectAttempts s1 = 3%Z
  /\ reconnectAttempts (s1 |> timer_fires |> set_readyState OPEN |> onopen) = 0%Z
  /\ connected (s1 |> timer_fires |> set_readyState OPEN |> onopen) = true.
Proof.
  destruct (stream_recovers_within_budget 10 [CLOSED; CONNECTING; CLOSED] opened)
    as (Ha & _ & Hc & Ha0 & _).
  - vm_compute. reflexivity.
  - vm_compute. eexists. reflexivity.
  - vm_compute. reflexivity.
  - vm_compute. reflexivity.
  - discriminate.
  - simpl. lia.
  - cbv zeta. split; [exact Ha|]. split; [exact Ha0|exact Hc].
Defined.

(** X13. The earlier revision asks for no session: with [sseEnabled] set
    and a reward id stored, [connectSSE] closes the transport held and,
    signed in or not, constructs a new one -- unless [cookies.getAll]
    rejects, in which case the script is left without transport (the old
    one is closed already) and with no reconnect scheduled. *)
Theorem earlier_revision_connects_without_session
    (cookies : Settled (list Json)) (s : State) :
  enabled_setting (local s) = true ->
  filter_configured (local s) = true ->
  let s1 := Part001.connectSSE cookies s in
  closes s1 = (closes s + holds_transport s)%nat
  /\ timers s1 = timers s
  /\ reconnectAttempts s1 = reconnectAttempts s
  /\ match cookies with
     | Resolved _ =>
         eventSource s1 = Some (mkEventSource CONNECTING)
         /\ constructed s1 = S (constructed s)
     | Rejected _ =>
         eventSource s1 = None /\ constructed s1 = constructed s
     end.
Proof.
  intros Hen Hf s1. subst s1.
  unfold Part001.connectSSE.
  rewrite !storage_get_lookup by set_solver.
  unfold enabled_setting in Hen. unfold filter_configured in Hf.
  rewrite Hen, Hf. cbn [negb]. cbv zeta.
  unfold close_existing, holds_transport.
  destruct s as [[es|] a t l tr]; destruct cookies as [c|reason]; cbn;
    (split; [count_trace|]); (split; [reflexivity|]); (split; [reflexivity|]);
    (split; [reflexivity|count_trace]).
Qed.

Lemma earlier_revision_connects_without_session_witness :
  let s := mkState None 0 0 (signed_out true "RWD-1") [] in
  credential_present (local s) = false
  /\ constructed (Part001.connectSSE (Resolved []) s) = 1%nat
  /\ constructed (connectSSE s) = 0%nat.
Proof.
  intros s.
  destruct (earlier_revision_connects_without_session (Resolved []) s)
    as (_ & _ & _ & _ & Hc).
  - vm_compute. reflexivity.
  - vm_compute. reflexivity.
  - split; [vm_compute; reflexivity|]. split; [exact Hc|vm_compute; reflexivity].
Defined.

(** * The content script *)

Lemma showNotification_clicks (p : Content.Page) :
  Content.clicks (fst (Content.showNotification p)) = Content.clicks p.
Proof.
  unfold Content.showNotification.
  destruct (Content.has_head p); [|reflexivity].
  cbn. destruct (Content.has_body p); reflexivity.
Qed.

Lemma click_and_notify_spec (text : string) (p : Content.Page) :
  Content.clicks (fst (Content.click_and_notify text p)) = S (Content.clicks p)
  /\ snd (Content.click_and_notify text p)
     = Content.has_head p && Content.has_body p.
Proof.
  unfold Content.click_and_notify, Content.showNotification.
  destruct p as [bi bx [] [] c st n ft rt ls]; cbn; split; reflexivity.
Qed.

Lemma clickPauseButton_clicks (p : Content.Page) :
  (snd (Content.clickPauseButton p) = true ->
     Content.clicks (fst (Content.clickPauseButton p)) = S (Content.clicks p))
  /\ (Content.clicks (fst (Content.clickPauseButton p)) <= S (Content.clicks p))%nat.
Proof.
  unfold Content.clickPauseButton.
  destruct (Content.byId p) as [el|].
  - destruct (Content.hidden el).
    + cbn. split; [discriminate|lia].
    + destruct (click_and_notify_spec "Successfully clicked pause button" p)
        as (-> & _).
      split; [auto|lia].
  - destruct (Content.byXPath p) as [el|].
    + destruct (click_and_notify_spec "Clicked pause button via XPath" p)
        as (-> & _).
      split; [auto|lia].
    + cbn. split; [discriminate|lia].
Qed.

(** X14. [clickPauseButton] clicks at most once, and reports success only
    when it has clicked.  A button found by id that is hidden ([display]
    none or [visibility] hidden) is never clicked, and the XPath lookup is
    then not used; with no button found nothing is clicked.  A button found
    by the XPath lookup alone is clicked whatever its style.  While the
    document has its head and body, success is reported exactly when the
    click was made. *)
Theorem click_is_reported_only_when_made (p : Content.Page) :
  let r := Content.clickPauseButton p in
  (snd r = true -> Content.clicks (fst r) = S (Content.clicks p))
  /\ (Content.clicks (fst r) <= S (Content.clicks p))%nat
  /\ (forall el, Content.byId p = Some el -> Content.hidden el = true ->
        snd r = false /\ Content.clicks (fst r) = Content.clicks p)
  /\ (Content.byId p = None -> Content.byXPath p = None ->
        snd r = false /\ Content.clicks (fst r) = Content.clicks p)
  /\ (forall el, Content.byId p = None -> Content.byXPath p = Some el ->
        Content.clicks (fst r) = S (Content.clicks p))
  /\ (Content.has_head p = true -> Content.has_body p = true ->
        (snd r = true <-> Content.clicks (fst r) = S (Content.clicks p))).
Proof.
  cbv zeta. unfold Content.clickPauseButton.
  destruct (Content.byId p) as [el|] eqn:Hid.
  - destruct (Content.hidden el) eqn:Hh.
    + cbn [fst snd Content.say Content.clicks].
      split; [discriminate|]. split; [lia|].
      split; [auto|]. split; [discriminate|]. split; [discriminate|].
      intros _ _. split; [discriminate|lia].
    + destruct (click_and_notify_spec "Successfully clicked pause button" p)
        as (-> & ->).
      split; [auto|]. split; [lia|].
      split; [intros el' H; injection H as <-; congruence|].
      split; [discriminate|]. split; [discriminate|].
      intros -> ->. split; auto.
  - destruct (Content.byXPath p) as [el|] eqn:Hx.
    + destruct (click_and_notify_spec "Clicked pause button via XPath" p)
        as (-> & ->).
      split; [auto|]. split; [lia|]. split; [discriminate|].
      split; [discriminate|]. split; [auto|].
      intros -> ->. split; auto.
    + cbn [fst snd Content.say Content.clicks].
      split; [discriminate|]. split; [lia|]. split; [discriminate|].
      split; [auto|]. split; [discriminate|].
      intros _ _. split; [discriminate|lia].
Qed.

(** X15. The message [sendPauseToAMQ] sends is one the content script
    answers: whatever the event data, the listener calls [sendResponse]
    with the time and a [success] flag, also when there is no button; the
    flag is [true] only if the button was clicked, exactly once.  The
    messages meant for the background script ([CONNECT_SSE],
    [DISCONNECT_SSE], [GET_SSE_STATUS]) leave the page as it is and get no
    answer from the content script. *)
Theorem content_script_answers_every_pause
    (now : Z) (d : Json) (p : Content.Page) :
  (exists ok : bool,
     snd (Content.onMessage now (pause_message d) p)
       = Content.Answered (JObj [("success", JBool ok); ("timestamp", JNum now)])
     /\ (ok = true ->
           Content.clicks (fst (Content.onMessage now (pause_message d) p))
             = S (Content.clicks p))
     /\ (Content.clicks (fst (Content.onMessage now (pause_message d) p))
           <= S (Content.clicks p))%nat)
  /\ Content.onMessage now CONNECT_SSE p = (p, Content.Silent)
  /\ Content.onMessage now DISCONNECT_SSE p = (p, Content.Silent)
  /\ Content.onMessage now GET_SSE_STATUS p = (p, Content.Silent).
Proof.
  split; [|repeat split].
  unfold Content.onMessage, pause_message.
  cbn [member get_prop assoc String.eqb Ascii.eqb Bool.eqb].
  change (strict_eq (Some (JStr "PAUSE_AMQ")) (Some (JStr "PAUSE_AMQ"))) with true.
  cbv iota.
  destruct (clickPauseButton_clicks
              (Content.say LLog "Received pause command:" p)) as (Hok & Hle).
  destruct (Content.clickPauseButton (Content.say LLog "Received pause command:" p))
    as [p1 ok].
  exists ok. cbn [fst snd] in *. split; [reflexivity|]. split; assumption.
Qed.

Lemma content_fire_invariant (e : Content.Event) (p : Content.Page) :
  Content.notifications p = (Content.fade_timers p + Content.remove_timers p)%nat ->
  (Content.notifications p <= Content.styles p)%nat ->
  Content.notifications (Content.fire e p)
    = (Content.fade_timers (Content.fire e p)
       + Content.remove_timers (Content.fire e p))%nat
  /\ (Content.notifications (Content.fire e p)
      <= Content.styles (Content.fire e p))%nat.
Proof.
  intros H1 H2. destruct e as [now message| | |bi bx hd bd]; cbn [Content.fire].
  - unfold Content.onMessage.
    destruct (member message "type") as [type|]; [|auto].
    destruct (strict_eq type (Some (JStr "PAUSE_AMQ"))); [|auto].
    unfold Content.clickPauseButton, Content.click_and_notify,
      Content.showNotification.
    destruct p as [[el|] [el'|] [] [] c st n ft rt ls]; cbn in *;
      try destruct (Content.hidden el); cbn; lia.
  - unfold Content.fade_fires.
    destruct p as [bi bx hd bd c st n [|ft] rt ls]; cbn in *; lia.
  - unfold Content.remove_fires.
    destruct p as [bi bx hd bd c st n ft [|rt] ls]; cbn in *; lia.
  - cbn. auto.
Qed.

(** X16. On a page, at any time, every notification the content script has
    in the document has one of its two timers pending, which will remove
    it, and none is in the document without its [style] node: nothing the
    script shows stays for good. *)
Theorem every_notification_has_a_timer_pending (p : Content.Page) :
  Content.reachable p ->
  Content.notifications p = (Content.fade_timers p + Content.remove_timers p)%nat
  /\ (Content.notifications p <= Content.styles p)%nat.
Proof.
  induction 1 as [bi bx hd bd|e p Hreach [IH1 IH2]].
  - cbn. lia.
  - apply content_fire_invariant; assumption.
Qed.

Lemma every_notification_has_a_timer_pending_witness :
  let p := Content.fire Content.Fade
             (Content.fire (Content.Message 1000 (pause_message JNull))
                (Content.loaded (Some (Content.mkElement "block" "visible")) None
                   true true)) in
  Content.notifications p = 1%nat /\ Content.remove_timers p = 1%nat
  /\ Content.notifications p
     = (Content.fade_timers p + Content.remove_timers p)%nat.
Proof.
  intros p. split; [reflexivity|]. split; [reflexivity|].
  apply (every_notification_has_a_timer_pending p).
  apply Content.reachable_fire. apply Content.reachable_fire.
  apply Content.reachable_loaded.
Defined.

(** X17. Showing a notification is undone by its two timers: where the
    document has a head and a body, [showNotification] returns, and after
    its 3000 ms and its 300 ms callback the page is exactly as it was
    before -- the notification and its [style] node are gone and no timer
    of it is left. *)
Theorem notification_round_trip (p : Content.Page) :
  Content.has_head p = true -> Content.has_body p = true ->
  snd (Content.showNotification p) = true
  /\ Content.notifications (fst (Content.showNotification p))
     = S (Content.notifications p)
  /\ Content.remove_fires (Content.fade_fires (fst (Content.showNotification p)))
     = p.
Proof.
  intros Hh Hb. unfold Content.showNotification.
  destruct p as [bi bx hd bd c st n ft rt ls]. cbn in Hh, Hb. subst hd bd.
  cbn. repeat split.
Qed.

Lemma notification_round_trip_witness :
  Content.remove_fires
    (Content.fade_fires (fst (Content.showNotification amq_page))) = amq_page.
Proof.
  apply (notification_round_trip amq_page); reflexivity.
Defined.

(** * The popup driving the script *)

Lemma set_enabled_lookup (v : bool) (st : gmap string Json) :
  enabled_setting ({[ "sseEnabled" := JBool v ]} ∪ st) = v.
Proof.
  unfold enabled_setting.
  rewrite (lookup_union_Some_l _ st "sseEnabled" (JBool v));
    [reflexivity|apply lookup_singleton_eq].
Qed.

Lemma store_local_after_change (st : gmap string Json)
    (changes : gmap string StorageChange) (s : State) :
  local (fire (EvStorage st changes) s) = st.
Proof.
  cbn [fire]. unfold onChanged. change (String.eqb "local" "local") with true.
  cbv iota.
  destruct (changed changes "sseEnabled" || changed changes "configuredRewardId");
    [|reflexivity].
  apply (connectSSE_frame
           (console LLog "Configuration changed, reconnecting SSE" []
              (set_local st s))).
Qed.

(** X18. Switching the connection off in the popup always stops it,
    whatever the browser lists as changed: the setting is stored off, the
    transport held (if any) is closed and dropped, nothing is constructed,
    and a reconnect that is still pending constructs nothing when it fires.
    The retry counter and the pending timers themselves are left alone. *)
Theorem popup_toggle_off_stops
    (changes : gmap string StorageChange) (config : Popup.ConfigState) (s : State) :
  Popup.sseEnabled config = true ->
  let r := Popup.handleToggleSSE changes config s in
  Popup.sseEnabled (fst r) = false
  /\ enabled_setting (local (snd r)) = false
  /\ eventSource (snd r) = None
  /\ closes (snd r) = (closes s + holds_transport s)%nat
  /\ constructed (snd r) = constructed s
  /\ reconnectAttempts (snd r) = reconnectAttempts s
  /\ timers (snd r) = timers s
  /\ eventSource (fire EvTimer (snd r)) = None
  /\ constructed (fire EvTimer (snd r)) = constructed s.
Proof.
  intros Hon r. subst r. unfold Popup.handleToggleSSE, Popup.storage_set.
  rewrite Hon. cbn [negb andb fst snd Popup.sseEnabled].
  set (st := {[ "sseEnabled" := JBool false ]} ∪ local s).
  assert (gate st = false) as Hg.
  { unfold gate. subst st. rewrite set_enabled_lookup. reflexivity. }
  destruct (storage_change_refused st changes s Hg) as (He & Ha & Ht & Hl & Hc & Hx).
  set (s1 := fire (EvStorage st changes) s) in *.
  change (fire (EvMessage DISCONNECT_SSE) s1) with (disconnect s1).
  destruct (disconnect_spec s1) as (He2 & Ha2 & Ht2 & Hl2 & Hc2 & Hx2).
  assert (gate (local (disconnect s1)) = false) as Hg2 by (rewrite Hl2, Hl; exact Hg).
  destruct (timer_refused (disconnect s1) Hg2) as (He3 & _ & Hc3).
  split; [reflexivity|].
  split; [rewrite Hl2, Hl; subst st; apply set_enabled_lookup|].
  split; [exact He2|].
  split; [rewrite Hx2, Hx; unfold holds_transport; rewrite He; reflexivity|].
  split; [congruence|]. split; [congruence|]. split; [congruence|].
  split; congruence.
Qed.

Lemma popup_toggle_off_stops_witness :
  let r := Popup.handleToggleSSE
             (change_of "sseEnabled" (config true "RWD-1") (config false "RWD-1"))
             (Popup.mkConfigState "RWD-1" true) opened in
  connected opened = true
  /\ eventSource (snd r) = None
  /\ closes (snd r) = 1%nat.
Proof.
  destruct (popup_toggle_off_stops
              (change_of "sseEnabled" (config true "RWD-1") (config false "RWD-1"))
              (Popup.mkConfigState "RWD-1" true) opened eq_refl)
    as (_ & _ & He & Hx & _).
  cbv zeta. split; [reflexivity|]. split; [exact He|]. rewrite Hx. reflexivity.
Defined.

(** X19. Switching the connection on in the popup, with a reward id in its
    field and a stored configuration that then passes the guards, connects
    twice when the browser notifies the change: the listener's
    [connectSSE] constructs an [EventSource] and the [CONNECT_SSE] command
    that follows closes it and constructs another.  One transport is held
    in the end, connecting. *)
Theorem popup_toggle_on_connects_twice
    (changes : gmap string StorageChange) (config : Popup.ConfigState) (s : State) :
  Popup.sseEnabled config = false ->
  Popup.rewardId config <> "" ->
  gate ({[ "sseEnabled" := JBool true ]} ∪ local s) = true ->
  let r := Popup.handleToggleSSE changes config s in
  let notified :=
    changed changes "sseEnabled" || changed changes "configuredRewardId" in
  Popup.sseEnabled (fst r) = true
  /\ eventSource (snd r) = Some (mkEventSource CONNECTING)
  /\ constructed (snd r)
     = (constructed s + (if notified then 2 else 1))%nat
  /\ closes (snd r)
     = (closes s + holds_transport s + (if notified then 1 else 0))%nat
  /\ reconnectAttempts (snd r) = reconnectAttempts s.
Proof.
  intros Hoff Hid Hg r notified. subst r.
  unfold Popup.handleToggleSSE, Popup.storage_set.
  rewrite Hoff. cbn [negb andb truthy].
  assert (String.eqb (Popup.rewardId config) "" = false) as ->
    by (apply String.eqb_neq; exact Hid).
  cbn [negb fst snd Popup.sseEnabled].
  set (st := {[ "sseEnabled" := JBool true ]} ∪ local s) in *.
  change (fire (EvMessage CONNECT_SSE)
            (fire (EvStorage st changes) s))
    with (connectSSE (fire (EvStorage st changes) s)).
  split; [reflexivity|].
  assert (local (fire (EvStorage st changes) s) = st) as Hl
    by apply (store_local_after_change st changes s).
  destruct (connectSSE_outcome (fire (EvStorage st changes) s)) as (Ha & _ & H).
  rewrite Hl, Hg in H. destruct H as (He & Hc & Hx).
  split; [exact He|]. rewrite Hc, Hx, Ha.
  subst notified.
  destruct (changed changes "sseEnabled" || changed changes "configuredRewardId")
    eqn:Hn.
  - rewrite (onChanged_reacts st changes s Hn).
    set (s0 := console LLog "Configuration changed, reconnecting SSE" []
                 (set_local st s)).
    destruct (connectSSE_outcome s0) as (Ha0 & _ & H0).
    change (local s0) with st in H0. rewrite Hg in H0.
    destruct H0 as (He0 & Hc0 & Hx0).
    destruct (console_counts LLog "Configuration changed, reconnecting SSE" []
                (set_local st s)) as (Hc1 & Hx1 & Hh1).
    fold s0 in Hc1, Hx1, Hh1.
    unfold holds_transport at 1. rewrite He0.
    rewrite Hc0, Hx0, Hc1, Hx1, Hh1, Ha0.
    change (constructed (set_local st s)) with (constructed s).
    change (closes (set_local st s)) with (closes s).
    change (holds_transport (set_local st s)) with (holds_transport s).
    repeat split; lia.
  - assert (fire (EvStorage st changes) s = set_local st s) as ->.
    { cbn [fire]. unfold onChanged.
      change (String.eqb "local" "local") with true. cbv iota.
      rewrite Hn. reflexivity. }
    change (constructed (set_local st s)) with (constructed s).
    change (closes (set_local st s)) with (closes s).
    change (holds_transport (set_local st s)) with (holds_transport s).
    repeat split; lia.
Qed.

Lemma popup_toggle_on_connects_twice_witness :
  let s := defineBackground (config false "RWD-1") in
  let r := Popup.handleToggleSSE
             (change_of "sseEnabled" (config false "RWD-1") (config true "RWD-1"))
             (Popup.mkConfigState "RWD-1" false) s in
  constructed s = 0%nat
  /\ constructed (snd r) = 2%nat
  /\ closes (snd r) = 1%nat
  /\ eventSource (snd r) = Some (mkEventSource CONNECTING).
Proof.
  intros s.
  destruct (popup_toggle_on_connects_twice
              (change_of "sseEnabled" (config false "RWD-1") (config true "RWD-1"))
              (Popup.mkConfigState "RWD-1" false) s)
    as (_ & He & Hc & Hx & _).
  - reflexivity.
  - discriminate.
  - vm_compute. reflexivity.
  - cbv zeta. split; [vm_compute; reflexivity|].
    split; [rewrite Hc; vm_compute; reflexivity|].
    split; [rewrite Hx; vm_compute; reflexivity|exact He].
Defined.

(** X20. Switching the connection on while the popup's reward-id field is
    empty stores the setting as on and sends [DISCONNECT_SSE], and what is
    left depends on which the script handles first.  If the [connectSSE]
    started by the storage listener runs before the command, the script
    ends without transport.  If the command is handled first, the script
    ends holding a connecting [EventSource] whenever the browser notifies
    the change and the stored configuration passes the guards, and without
    transport otherwise.  In both orders one [EventSource] is constructed
    in that case and none otherwise. *)
Theorem popup_toggle_on_with_empty_field_is_a_race
    (changes : gmap string StorageChange) (config : Popup.ConfigState) (s : State) :
  Popup.sseEnabled config = false ->
  Popup.rewardId config = "" ->
  let st := {[ "sseEnabled" := JBool true ]} ∪ local s in
  let connects :=
    (changed changes "sseEnabled" || changed changes "configuredRewardId")
    && gate st in
  let r := Popup.handleToggleSSE changes config s in
  let r' := Popup.handleToggleSSE_command_first changes config s in
  (Popup.sseEnabled (fst r) = true
   /\ enabled_setting (local (snd r)) = true
   /\ eventSource (snd r) = None
   /\ constructed (snd r) = (constructed s + (if connects then 1 else 0))%nat)
  /\ (Popup.sseEnabled (fst r') = true
      /\ enabled_setting (local (snd r')) = true
      /\ eventSource (snd r')
         = (if connects then Some (mkEventSource CONNECTING) else None)
      /\ constructed (snd r') = (constructed s + (if connects then 1 else 0))%nat).
Proof.
  intros Hoff Hid st connects r r'. subst r r' connects.
  unfold Popup.handleToggleSSE, Popup.handleToggleSSE_command_first,
    Popup.storage_set.
  rewrite Hoff, Hid. cbn [negb andb truthy String.eqb fst snd Popup.sseEnabled].
  fold st. split.
  - change (fire (EvMessage DISCONNECT_SSE) (fire (EvStorage st changes) s))
      with (disconnect (fire (EvStorage st changes) s)).
    destruct (disconnect_spec (fire (EvStorage st changes) s))
      as (He & _ & _ & Hl & Hc & _).
    split; [reflexivity|].
    split; [rewrite Hl, store_local_after_change; subst st;
            apply set_enabled_lookup|].
    split; [exact He|]. rewrite Hc.
    destruct (changed changes "sseEnabled" || changed changes "configuredRewardId")
      eqn:Hn; cbn [andb].
    + rewrite (onChanged_reacts st changes s Hn).
      destruct (connectSSE_outcome
                  (console LLog "Configuration changed, reconnecting SSE" []
                     (set_local st s))) as (_ & _ & H).
      change (local (console LLog "Configuration changed, reconnecting SSE" []
                       (set_local st s))) with st in H.
      destruct (console_counts LLog "Configuration changed, reconnecting SSE" []
                  (set_local st s)) as (Hc1 & _).
      change (constructed (set_local st s)) with (constructed s) in Hc1.
      destruct (gate st); destruct H as (_ & -> & _); lia.
    + assert (fire (EvStorage st changes) s = set_local st s) as ->.
      { cbn [fire]. unfold onChanged.
        change (String.eqb "local" "local") with true. cbv iota.
        rewrite Hn. reflexivity. }
      change (constructed (set_local st s)) with (constructed s). lia.
  - change (fire (EvMessage DISCONNECT_SSE) (set_local st s))
      with (disconnect (set_local st s)).
    destruct (disconnect_spec (set_local st s)) as (He & _ & _ & Hl & Hc & _).
    change (local (set_local st s)) with st in Hl.
    change (constructed (set_local st s)) with (constructed s) in Hc.
    split; [reflexivity|].
    unfold onChanged. change (String.eqb "local" "local") with true. cbv iota.
    destruct (changed changes "sseEnabled" || changed changes "configuredRewardId");
      cbn [andb].
    + set (s0 := console LLog "Configuration changed, reconnecting SSE" []
                   (disconnect (set_local st s))).
      destruct (connectSSE_frame s0) as (_ & _ & Hl0).
      destruct (connectSSE_outcome s0) as (_ & _ & H).
      change (local s0) with (local (disconnect (set_local st s))) in H, Hl0.
      rewrite Hl in H, Hl0.
      destruct (console_counts LLog "Configuration changed, reconnecting SSE" []
                  (disconnect (set_local st s))) as (Hc1 & _).
      fold s0 in Hc1.
      split; [rewrite Hl0; subst st; apply set_enabled_lookup|].
      destruct (gate st); destruct H as (He0 & Hc0 & _).
      * split; [exact He0|]. rewrite Hc0, Hc1, Hc. lia.
      * split; [rewrite He0; exact He|]. rewrite Hc0, Hc1, Hc. lia.
    + split; [rewrite Hl; subst st; apply set_enabled_lookup|].
      split; [exact He|]. rewrite Hc. lia.
Qed.

Lemma popup_toggle_on_with_empty_field_is_a_race_witness :
  let s := defineBackground (config false "RWD-1") in
  let changes := change_of "sseEnabled" (config false "RWD-1") (config true "RWD-1") in
  let field_empty := Popup.mkConfigState "" false in
  eventSource (snd (Popup.handleToggleSSE changes field_empty s)) = None
  /\ eventSource (snd (Popup.handleToggleSSE_command_first changes field_empty s))
     = Some (mkEventSource CONNECTING).
Proof.
  intros s changes field_empty.
  destruct (popup_toggle_on_with_empty_field_is_a_race changes field_empty s
              eq_refl eq_refl)
    as ((_ & _ & He & _) & (_ & _ & He' & _)).
  split; [exact He|]. rewrite He'. vm_compute. reflexivity.
Defined.

Lemma connectSSE_sent (s : State) :
  sent_to (trace (connectSSE s)) = sent_to (trace s).
Proof.
  rewrite connectSSE_gate.
  destruct (negb (enabled_setting (local s)));
    [cbn; rewrite sent_to_app; cbn; apply app_nil_r|].
  destruct (negb (filter_configured (local s)));
    [cbn; rewrite sent_to_app; cbn; apply app_nil_r|].
  destruct (negb (credential_present (local s)));
    [cbn; rewrite !sent_to_app; cbn; now rewrite !app_nil_r|].
  unfold close_existing, open_stream.
  destruct (eventSource s); cbn; rewrite !sent_to_app; cbn;
    now rewrite !app_nil_r.
Qed.

Lemma storage_event_sent (st : gmap string Json)
    (changes : gmap string StorageChange) (s : State) :
  sent_to (trace (fire (EvStorage st changes) s)) = sent_to (trace s).
Proof.
  cbn [fire]. unfold onChanged. change (String.eqb "local" "local") with true.
  cbv iota.
  destruct (changed changes "sseEnabled" || changed changes "configuredRewardId");
    [|reflexivity].
  rewrite connectSSE_sent. cbn. rewrite sent_to_app. cbn. apply app_nil_r.
Qed.

(** X21. Saving in the popup with the connection on and a non-empty reward
    id, while signed in, makes that id the filter: the script reconnects,
    and once the stream is open a pause event is sent to the target tabs
    exactly when it carries the saved id -- whatever id was stored
    before. *)
Theorem popup_save_sets_the_filter
    (changes : gmap string StorageChange) (config : Popup.ConfigState)
    (s : State) (b : Browser) (r : string) :
  Popup.sseEnabled config = true ->
  Popup.rewardId config <> "" ->
  credential_present (local s) = true ->
  let s1 := Popup.handleSaveConfig changes config s in
  let s2 := fire EvOpen s1 in
  eventSource s1 = Some (mkEventSource CONNECTING)
  /\ connected s2 = true
  /\ sent_to (trace (fire (EvPause b (pause_event r)) s2)) =
       sent_to (trace s) ++
         (if String.eqb (Popup.rewardId config) r
          then match tabs_query b with
               | Resolved tabs => targets tabs
               | Rejected _ => []
               end
          else []).
Proof.
  intros Hon Hid Hcred s1 s2.
  set (st := <["configuredRewardId" := JStr (Popup.rewardId config)]>
               {[ "sseEnabled" := JBool true ]} ∪ local s).
  assert (st !! "configuredRewardId" = Some (JStr (Popup.rewardId config))) as Hcfg.
  { subst st. apply lookup_union_Some_l. apply lookup_insert_eq. }
  assert (gate st = true) as Hg.
  { unfold gate, enabled_setting, filter_configured, credential_present.
    rewrite Hcfg.
    assert (st !! "sseEnabled" = Some (JBool true)) as ->.
    { subst st. apply lookup_union_Some_l.
      rewrite lookup_insert_ne by discriminate. apply lookup_singleton_eq. }
    assert (st !! "twitchSession" = local s !! "twitchSession") as ->.
    { subst st. apply lookup_union_r.
      rewrite lookup_insert_ne by discriminate.
      apply lookup_singleton_ne. discriminate. }
    unfold credential_present in Hcred. rewrite Hcred.
    cbn [truthy]. apply String.eqb_neq in Hid. rewrite Hid. reflexivity. }
  assert (s1 = connectSSE (fire (EvStorage st changes) s)) as Hs1.
  { subst s1. unfold Popup.handleSaveConfig, Popup.storage_set.
    rewrite Hon. cbn [andb truthy].
    apply String.eqb_neq in Hid. rewrite Hid. reflexivity. }
  destruct (connectSSE_outcome (fire (EvStorage st changes) s)) as (_ & _ & H).
  rewrite store_local_after_change, Hg in H. destruct H as (He & _).
  rewrite <- Hs1 in He.
  split; [exact He|].
  assert (s2 = onopen (set_eventSource (Some (mkEventSource OPEN)) s1)) as Hs2.
  { subst s2. cbn [fire]. unfold set_readyState. rewrite He. reflexivity. }
  split; [rewrite Hs2; reflexivity|].
  assert (local s2 !! "configuredRewardId" = Some (JStr (Popup.rewardId config)))
    as Hcfg2.
  { rewrite Hs2. cbn [local onopen set_eventSource set_reconnectAttempts console emit].
    rewrite Hs1.
    destruct (connectSSE_frame (fire (EvStorage st changes) s)) as (_ & _ & ->).
    rewrite store_local_after_change. exact Hcfg. }
  cbn [fire].
  rewrite (pause_listener_sent b (Popup.rewardId config) r s2 Hcfg2).
  f_equal. rewrite Hs2.
  cbn [trace onopen set_eventSource set_reconnectAttempts console emit].
  rewrite sent_to_app. cbn [sent_to]. rewrite app_nil_r.
  rewrite Hs1, connectSSE_sent. apply storage_event_sent.
Qed.

Lemma popup_save_sets_the_filter_witness :
  let s1 := Popup.handleSaveConfig
              (change_of "configuredRewardId" (config true "RWD-1") (config true "RWD-2"))
              (Popup.mkConfigState "RWD-2" true) opened in
  sent_to (trace (fire (EvPause three_tabs (pause_event "RWD-2")) (fire EvOpen s1)))
    = [7; 8; 9]%Z
  /\ sent_to (trace (fire (EvPause three_tabs (pause_event "RWD-1")) (fire EvOpen s1)))
    = [].
Proof.
  intros s1. split.
  - destruct (popup_save_sets_the_filter
                (change_of "configuredRewardId" (config true "RWD-1") (config true "RWD-2"))
                (Popup.mkConfigState "RWD-2" true) opened three_tabs "RWD-2")
      as (_ & _ & H).
    + reflexivity.
    + discriminate.
    + vm_compute. reflexivity.
    + exact H.
  - vm_compute. reflexivity.
Defined.

(** * C6: the filter, with the store as the extension writes it *)

Lemma console_sent (l : Level) (text : string) (args : list Json) (s : State) :
  sent_to (trace (console l text args s)) = sent_to (trace s).
Proof. cbn. rewrite sent_to_app. cbn. apply app_nil_r. Qed.

Lemma console_queries (l : Level) (text : string) (args : list Json) (s : State) :
  queries (console l text args s) = queries s.
Proof. count_queries. Qed.

(** One run of the "pause" listener on a parsed payload, with a string
    stored as reward id. *)
Lemma pause_listener_cases (b : Browser) (d : Json) (f : string) (s : State) :
  local s !! "configuredRewardId" = Some (JStr f) ->
  let s' := fst (pause_listener b (mkMessageEvent (Parsed d)) s) in
  ((exists fields, d = JObj fields /\ assoc "rewardId" fields = Some (JStr f)) ->
     queries s' = S (queries s)
     /\ sent_to (trace s') =
          sent_to (trace s) ++
            match tabs_query b with
            | Resolved tabs => targets tabs
            | Rejected _ => []
            end)
  /\ (~ (exists fields, d = JObj fields /\ assoc "rewardId" fields = Some (JStr f)) ->
        queries s' = queries s /\ sent_to (trace s') = sent_to (trace s)).
Proof.
  intros Hcfg s'. subst s'. unfold pause_listener. cbn [data]. cbv zeta.
  rewrite storage_get_lookup by set_solver.
  change (local (console LLog "Received pause event:" [d] s)) with (local s).
  rewrite Hcfg.
  destruct d as [|x|n|x|items|fields]; cbn [member get_prop];
    try (change (strict_eq (Some (JStr f)) None) with false; cbn [negb fst];
         rewrite !console_queries, !console_sent;
         split; [intros (fields & H & _); discriminate|auto]).
  destruct (strict_eq (Some (JStr f)) (assoc "rewardId" fields)) eqn:E;
    cbn [negb fst].
  - rewrite sendPauseToAMQ_queries, sendPauseToAMQ_sent,
        !console_queries, !console_sent.
    split; [auto|]. intros Hno. exfalso. apply Hno.
    exists fields. split; [reflexivity|]. now apply strict_eq_string.
  - rewrite !console_queries, !console_sent.
    split; [|auto]. intros (fields' & H & Hassoc). injection H as <-.
    apply strict_eq_string in Hassoc. congruence.
Qed.

Lemma connectSSE_transport_origin (s : State) :
  eventSource (connectSSE s) <> None ->
  eventSource s <> None \/ filter_configured (local s) = true.
Proof.
  destruct (connectSSE_outcome s) as (_ & _ & H).
  destruct (gate (local s)) eqn:Hg; destruct H as (He & _).
  - intros _. right. unfold gate in Hg.
    destruct (enabled_setting (local s)); [|discriminate].
    destruct (filter_configured (local s)); [reflexivity|discriminate].
  - rewrite He. auto.
Qed.

Lemma fire_keeps_store (e : Event) (s : State) :
  is_storage_event e = false -> local (fire e s) = local s.
Proof.
  destruct e as [message|st changes|changes areaName| |rs|event|b event| ];
    cbn [fire is_storage_event]; intros He; try discriminate.
  - unfold onMessage.
    destruct (member message "type") as [type|]; [|reflexivity].
    destruct (strict_eq type (Some (JStr "CONNECT_SSE")));
      [cbn [fst]; apply connectSSE_frame|].
    destruct (strict_eq type (Some (JStr "DISCONNECT_SSE")));
      [cbn [fst]; apply disconnect_spec|].
    destruct (strict_eq type (Some (JStr "GET_SSE_STATUS"))); reflexivity.
  - unfold onChanged. destruct (String.eqb areaName "local"); [|reflexivity].
    destruct (changed changes "sseEnabled" || changed changes "configuredRewardId");
      [|reflexivity].
    apply (connectSSE_frame
             (console LLog "Configuration changed, reconnecting SSE" [] s)).
  - unfold set_readyState. destruct (eventSource s); reflexivity.
  - unfold onerror.
    destruct (onerror_with_spec MAX_RECONNECT_ATTEMPTS (set_readyState rs s))
      as (_ & -> & _).
    apply set_readyState_frame.
  - unfold connected_listener. destruct (data event); reflexivity.
  - apply pause_listener_counts.
  - unfold timer_fires. destruct (timers s) as [|n]; [reflexivity|].
    apply (connectSSE_frame (set_timers n s)).
Qed.

(** A transport held after an event was held before it, or was made by a
    [connectSSE] that found a reward id in the store. *)
Lemma fire_transport_origin (e : Event) (s : State) :
  eventSource (fire e s) <> None ->
  eventSource s <> None \/ filter_configured (local (fire e s)) = true.
Proof.
  destruct e as [message|st changes|changes areaName| |rs|event|b event| ];
    cbn [fire].
  - unfold onMessage.
    destruct (member message "type") as [type|]; [|cbn [fst]; auto].
    destruct (strict_eq type (Some (JStr "CONNECT_SSE"))).
    { cbn [fst]. destruct (connectSSE_frame s) as (_ & _ & ->).
      apply connectSSE_transport_origin. }
    destruct (strict_eq type (Some (JStr "DISCONNECT_SSE"))).
    { cbn [fst]. destruct (disconnect_spec s) as (-> & _). congruence. }
    destruct (strict_eq type (Some (JStr "GET_SSE_STATUS"))); cbn [fst]; auto.
  - unfold onChanged. change (String.eqb "local" "local") with true. cbv iota.
    destruct (changed changes "sseEnabled" || changed changes "configuredRewardId").
    + set (s0 := console LLog "Configuration changed, reconnecting SSE" []
                   (set_local st s)).
      destruct (connectSSE_frame s0) as (_ & _ & ->).
      intros H. destruct (connectSSE_transport_origin s0 H) as [H0|H0]; auto.
    + cbn. auto.
  - unfold onChanged. destruct (String.eqb areaName "local"); [|auto].
    destruct (changed changes "sseEnabled" || changed changes "configuredRewardId");
      [|auto].
    set (s0 := console LLog "Configuration changed, reconnecting SSE" [] s).
    destruct (connectSSE_frame s0) as (_ & _ & ->).
    intros H. destruct (connectSSE_transport_origin s0 H) as [H0|H0]; auto.
  - unfold set_readyState.
    destruct (eventSource s) eqn:E; [left; discriminate|].
    cbn. rewrite E. auto.
  - unfold onerror.
    destruct (onerror_with_spec MAX_RECONNECT_ATTEMPTS (set_readyState rs s))
      as (-> & _).
    congruence.
  - unfold connected_listener. destruct (data event); cbn [fst]; auto.
  - destruct (pause_listener_frame b event s) as (-> & _). auto.
  - unfold timer_fires. destruct (timers s) as [|n]; [auto|].
    destruct (connectSSE_frame (set_timers n s)) as (_ & _ & ->).
    intros H.
    destruct (connectSSE_transport_origin (set_timers n s) H) as [H0|H0]; auto.
Qed.

Lemma written_reward_id (w : Write) (st : gmap string Json) :
  permitted w = true ->
  reward_id_well_formed st ->
  reward_id_well_formed (written w st)
  /\ (filter_configured st = true -> filter_configured (written w st) = true).
Proof.
  intros Hw Hst.
  destruct w as [r b|b|v|]; cbn [written permitted] in *.
  - assert ((<["configuredRewardId" := JStr r]> {[ "sseEnabled" := JBool b ]} ∪ st)
              !! "configuredRewardId" = Some (JStr r)) as Hl
      by (apply lookup_union_Some_l, lookup_insert_eq).
    split.
    + right. exists r. split; [|exact Hl].
      intros ->. discriminate.
    + intros _. unfold filter_configured. rewrite Hl. exact Hw.
  - assert (({[ "sseEnabled" := JBool b ]} ∪ st) !! "configuredRewardId"
            = st !! "configuredRewardId") as Hl
      by (apply lookup_union_r, lookup_singleton_ne; discriminate).
    unfold reward_id_well_formed, filter_configured. rewrite Hl. auto.
  - assert (({[ "twitchSession" := v ]} ∪ st) !! "configuredRewardId"
            = st !! "configuredRewardId") as Hl
      by (apply lookup_union_r, lookup_singleton_ne; discriminate).
    unfold reward_id_well_formed, filter_configured. rewrite Hl. auto.
  - assert (delete "twitchSession" st !! "configuredRewardId"
            = st !! "configuredRewardId") as Hl
      by (apply lookup_delete_ne; discriminate).
    unfold reward_id_well_formed, filter_configured. rewrite Hl. auto.
Qed.

Lemma defineBackground_spec (st : gmap string Json) :
  local (defineBackground st) = st
  /\ (eventSource (defineBackground st) <> None -> filter_configured st = true).
Proof.
  unfold defineBackground.
  set (s0 := console LLog "Background script started" [] (mkState None 0 0 st [])).
  destruct (connectSSE_frame s0) as (_ & _ & Hl).
  split; [exact Hl|].
  intros H. destruct (connectSSE_transport_origin s0 H) as [H0|H0].
  - contradiction H0. reflexivity.
  - exact H0.
Qed.

(** In service, the stored reward id is well formed, and a transport is
    held only over a non-empty stored reward id. *)
Lemma in_service_invariant (s : State) :
  in_service s ->
  reward_id_well_formed (local s)
  /\ (eventSource s <> None -> filter_configured (local s) = true).
Proof.
  induction 1 as [|s Hs [IH1 IH2]|w changes st s Hs [IH1 IH2] Hw ->
                  |e s Hs [IH1 IH2] He Hen].
  - destruct (defineBackground_spec ∅) as (-> & H). split; [|exact H].
    left. apply lookup_empty.
  - destruct (defineBackground_spec (local s)) as (-> & H). auto.
  - destruct (written_reward_id w (local s) Hw IH1) as [Hwf Hmono].
    rewrite store_local_after_change. split; [exact Hwf|].
    intros Hheld.
    destruct (fire_transport_origin _ s Hheld) as [H0|H0].
    + auto.
    + rewrite store_local_after_change in H0. exact H0.
  - rewrite (fire_keeps_store e s He). split; [exact IH1|].
    intros Hheld.
    destruct (fire_transport_origin e s Hheld) as [H0|H0].
    + auto.
    + rewrite (fire_keeps_store e s He) in H0. exact H0.
Qed.


Lemma streaming_in_service : in_service streaming.
Proof.
  unfold streaming.
  apply in_service_fired; [|reflexivity|vm_compute; reflexivity].
  apply (in_service_written (SaveConfig "RWD-1" true)); [|reflexivity|].
  - apply (in_service_written (StoreSession session)); [|reflexivity|].
    + apply in_service_installed.
    + vm_compute. reflexivity.
  - vm_compute. reflexivity.
Defined.

